(** * DIDComm mediator coordination: handlers and the data store plugin

    A shallow embedding of
    - [packages/did-comm/src/protocols/coordinate-mediation-message-handler]
      (the message builders, [CoordinateMediationMediatorMessageHandler] and
      [CoordinateMediationRecipientMessageHandler]), and
    - the [DataStore] agent plugin (its constructor's [methods] map and the
      message repository operations),
    together with the properties the specification states about them.

    Asynchronous code is embedded as a state-and-exception monad over the
    agent: every [await] is a sequencing point, a rejected promise that is
    awaited is a thrown exception, and a promise nobody awaits is a
    computation the code that created it does not run. *)

From stdpp Require Import gmap strings list fin_maps.

Local Open Scope string_scope.
Local Open Scope list_scope.

(** ** Message type identifiers *)

Module CoordinateMediation.
Definition MEDIATE_REQUEST : string :=
  "https://didcomm.org/coordinate-mediation/3.0/mediate-request".
Definition MEDIATE_GRANT : string :=
  "https://didcomm.org/coordinate-mediation/3.0/mediate-grant".
Definition MEDIATE_DENY : string :=
  "https://didcomm.org/coordinate-mediation/3.0/mediate-deny".
Definition RECIPIENT_UPDATE : string :=
  "https://didcomm.org/coordinate-mediation/3.0/recipient-update".
Definition RECIPIENT_UPDATE_RESPONSE : string :=
  "https://didcomm.org/coordinate-mediation/3.0/recipient-update-response".
Definition RECIPIENT : string :=
  "https://didcomm.org/coordinate-mediation/3.0/recipient".
End CoordinateMediation.

(** ** Data model *)

(** [interface Update] and [interface UpdateResult extends Update]. *)
Inductive UpdateAction := add | remove.
Inductive RecipientUpdateResult := success | no_change | client_error | server_error.

Record Update := { recipient_did : string; action : UpdateAction }.
Record UpdateResult := { update : Update; result : RecipientUpdateResult }.

(** The part of a message body the handlers read: [routing_did] of a grant
    and [updates] of a recipient update; an absent key is [None].  A body
    that is [null] is [None] at the field holding the body. *)
Record Body := {
  routing_did : option (list string);
  updates : option (list Update)
}.

Definition emptyBody : Body := {| routing_did := None; updates := None |}.

(** [IDIDCommMessage]: what the [create...Message] builders return. *)
Record IDIDCommMessage := {
  dc_type : string;
  dc_from : option string;
  dc_to : option string;
  dc_id : string;
  dc_thid : option string;
  dc_created_time : option string;
  dc_body : option Body;
  dc_return_route : option string
}.

(** The result of [packDIDCommMessage]: packing is a capability of the
    DIDComm plugin, kept symbolic. *)
Inductive IPackedDIDCommMessage :=
  Packed (packing : string) (message : IDIDCommMessage).

(** A service of an identifier.  [serviceEndpoint] is a string, an object
    with a [uri], or an array of those. *)
Inductive Endpoint :=
| EndpointString (s : string)
| EndpointObject (uri : string).

Inductive ServiceEndpoint :=
| SingleEndpoint (e : Endpoint)
| EndpointArray (l : list Endpoint).

Record IService := {
  svc_id : string;
  svc_type : string;
  serviceEndpoint : ServiceEndpoint
}.

Record IIdentifier := { did : string; services : list IService }.

(** Meta data entries carry [JSON.stringify] of a value; the two values the
    handlers serialise are kept as terms. *)
Inductive Json :=
| JsonReturnRouteResponse (id : string) (message : IPackedDIDCommMessage)
    (contentType : string)
| JsonService (s : IService).

Record IMetaData := { md_type : string; md_value : Json }.

(** [IMessage] / the [Message] class: the decrypted message that travels
    through the handler chain and that the data store saves.  The DIDComm
    [thid] and [body] are its [threadId] and [data]. *)
Record IMessage := {
  id : string;
  type : string;
  from : option string;
  to : option string;
  threadId : option string;
  data : option Body;
  createdAt : option string;
  metaData : list IMetaData
}.

Definition addMetaData (message : IMessage) (meta : IMetaData) : IMessage :=
  {| id := id message; type := type message; from := from message;
     to := to message; threadId := threadId message; data := data message;
     createdAt := createdAt message;
     metaData := metaData message ++ [meta] |}.

Inductive MediationPolicy := ALLOW | DENY.
Inductive MediationStatus := GRANTED | DENIED.

(** ** Exceptions and the agent *)

(** [new Error(message)] and the runtime's [TypeError]. *)
Inductive Exn :=
| Error (message : string)
| TypeError (message : string).

Definition is_invalid_argument (e : Exn) : bool :=
  match e with
  | Error m => String.prefix "invalid_argument:" m
  | TypeError _ => false
  end.

Inductive LogEntry :=
| LogText (s : string)
| LogExn (e : Exn).

(** The agent the handlers run against ([context.agent]): the message
    repository of the data store, the identifiers of the DID manager, the
    recipient-did registry, the mediation policies and statuses of the
    mediation manager, and what [debug] printed. *)
Record Agent := {
  messages : gmap string IMessage;
  identifiers : gmap string IIdentifier;
  recipient_dids : gset (string * string);
  mediation_policies : gmap string MediationPolicy;
  mediations : gmap string MediationStatus;
  mediateDefaultGrantAll : bool;
  debug_log : list LogEntry
}.

Definition set_messages (f : gmap string IMessage → gmap string IMessage)
    (a : Agent) : Agent :=
  {| messages := f (messages a); identifiers := identifiers a;
     recipient_dids := recipient_dids a;
     mediation_policies := mediation_policies a; mediations := mediations a;
     mediateDefaultGrantAll := mediateDefaultGrantAll a;
     debug_log := debug_log a |}.

Definition set_identifiers
    (f : gmap string IIdentifier → gmap string IIdentifier) (a : Agent) : Agent :=
  {| messages := messages a; identifiers := f (identifiers a);
     recipient_dids := recipient_dids a;
     mediation_policies := mediation_policies a; mediations := mediations a;
     mediateDefaultGrantAll := mediateDefaultGrantAll a;
     debug_log := debug_log a |}.

Definition set_recipient_dids
    (f : gset (string * string) → gset (string * string)) (a : Agent) : Agent :=
  {| messages := messages a; identifiers := identifiers a;
     recipient_dids := f (recipient_dids a);
     mediation_policies := mediation_policies a; mediations := mediations a;
     mediateDefaultGrantAll := mediateDefaultGrantAll a;
     debug_log := debug_log a |}.

Definition set_debug_log (f : list LogEntry → list LogEntry) (a : Agent) : Agent :=
  {| messages := messages a; identifiers := identifiers a;
     recipient_dids := recipient_dids a;
     mediation_policies := mediation_policies a; mediations := mediations a;
     mediateDefaultGrantAll := mediateDefaultGrantAll a;
     debug_log := f (debug_log a) |}.

(** ** The monad of asynchronous agent code *)

Inductive Outcome (A : Type) :=
| Return (a : A)
| Throw (e : Exn).
Arguments Return {A} a.
Arguments Throw {A} e.

Definition M (A : Type) : Type := Agent → Outcome A * Agent.

Definition ret {A} (a : A) : M A := λ s, (Return a, s).
Definition throw {A} (e : Exn) : M A := λ s, (Throw e, s).
Definition bind {A B} (c : M A) (k : A → M B) : M B :=
  λ s, match c s with
       | (Return a, s') => k a s'
       | (Throw e, s') => (Throw e, s')
       end.
(** [try { c } catch (ex) { h ex }] *)
Definition try_catch {A} (c : M A) (h : Exn → M A) : M A :=
  λ s, match c s with
       | (Return a, s') => (Return a, s')
       | (Throw e, s') => h e s'
       end.

Notation "'await' x <- c ; k" := (bind c (λ x, k))
  (at level 10, x name, c at level 100, k at level 200).
Notation "'run' c ; k" := (bind c (λ _, k))
  (at level 10, c at level 100, k at level 200).

Definition debug (e : LogEntry) : M unit :=
  λ s, (Return tt, set_debug_log (λ l, l ++ [e]) s).

(** JavaScript truthiness of an optional string: [undefined] and the empty
    string are falsy.  [isSet o] is [Some s] exactly when [!o] is false. *)
Definition isSet (o : option string) : option string :=
  match o with
  | Some s => if String.eqb s "" then None else Some s
  | None => None
  end.

(** ** The [DataStore] plugin *)

Module DataStore.

(** The bound methods the class defines. *)
Inductive Method :=
| boundSaveMessage
| boundGetMessage
| boundDeleteMessage
| boundDeleteVerifiableCredential
| boundSaveVerifiableCredential
| boundGetVerifiableCredential
| boundSaveVerifiablePresentation
| boundGetVerifiablePresentation.

(** [this.methods = { ... }] of the constructor, as the object literal is
    written: the keys in order, each with the method bound to it.  The
    three recipient-did lines are comments in the source and contribute
    no entry. *)
Definition methods : list (string * Method) :=
  [ ("dataStoreSaveMessage", boundSaveMessage);
    ("dataStoreGetMessage", boundGetMessage);
    ("dataStoreDeleteMessage", boundDeleteMessage);
    ("dataStoreDeleteVerifiableCredential", boundDeleteVerifiableCredential);
    ("dataStoreSaveVerifiableCredential", boundSaveVerifiableCredential);
    ("dataStoreGetVerifiableCredential", boundGetVerifiableCredential);
    ("dataStoreSaveVerifiablePresentation", boundSaveVerifiablePresentation);
    ("dataStoreGetVerifiablePresentation", boundGetVerifiablePresentation) ].

(** Property lookup [methods[name]]. *)
Definition method (name : string) : option Method :=
  (list_to_map methods : gmap string Method) !! name.

(** [getRepository(Message).save(...)] writes the row with the message's
    primary key, its [id].  Where a row with that id exists the model
    replaces it; a repository update would keep the columns the new entity
    leaves unset. *)
Definition dataStoreSaveMessage (message : IMessage) : M string :=
  λ s, (Return (id message),
        set_messages (λ ms, <[id message := message]> ms) s).

Definition dataStoreGetMessage (i : string) : M IMessage :=
  λ s, match messages s !! i with
       | Some messageEntity => (Return messageEntity, s)
       | None => (Throw (Error "not_found: Message not found"), s)
       end.

Definition dataStoreDeleteMessage (i : string) : M bool :=
  λ s, match messages s !! i with
       | None => (Return false, s)
       | Some _ => (Return true, set_messages (λ ms, delete i ms) s)
       end.

End DataStore.

(** ** Capabilities the handlers consume from other plugins *)

(** Modelled from the spec: the DID manager ([didManagerGet],
    [didManagerAddService], [didManagerRemoveService]) lives in the
    did-manager package, outside the files embedded here.  Following the
    interface of section 6 of the specification,
    [getDidDocument(did)] reads the identifier, [addService(did, service)]
    upserts the service entry with that id and [removeService(did,
    serviceId)] removes it; an unknown [did] is an error. *)
Definition didManagerGet (d : string) : M IIdentifier :=
  λ s, match identifiers s !! d with
       | Some identifier => (Return identifier, s)
       | None => (Throw (Error "not_found: Identifier not found"), s)
       end.

Definition upsertService (service : IService) (l : list IService) : list IService :=
  filter (λ x, svc_id x ≠ svc_id service) l ++ [service].

Definition didManagerAddService (d : string) (service : IService) : M unit :=
  await identifier <- didManagerGet d;
  λ s, (Return tt,
        set_identifiers
          (λ m, <[d := {| did := did identifier;
                          services := upsertService service (services identifier) |}]> m)
          s).

Definition didManagerRemoveService (d : string) (i : string) : M unit :=
  await identifier <- didManagerGet d;
  λ s, (Return tt,
        set_identifiers
          (λ m, <[d := {| did := did identifier;
                          services := filter (λ x, svc_id x ≠ i) (services identifier) |}]> m)
          s).

(** Modelled from the spec: the recipient-did registry of the store
    ([dataStoreAddRecipientDid], [dataStoreRemoveRecipientDid]) has no
    implementation in the files embedded here (the [DataStore] class only
    carries them as comments).  Following section 6 of the specification,
    [addRecipientDid(did, recipient_did) -> bool(inserted)] and
    [removeRecipientDid(did, recipient_did) -> bool(deleted)] over a set of
    [(did, recipient_did)] pairs. *)
Definition dataStoreAddRecipientDid (recipient : string) (rd : string) : M bool :=
  λ s, if decide ((recipient, rd) ∈ recipient_dids s)
       then (Return false, s)
       else (Return true, set_recipient_dids (λ r, {[ (recipient, rd) ]} ∪ r) s).

Definition dataStoreRemoveRecipientDid (recipient : string) (rd : string) : M bool :=
  λ s, if decide ((recipient, rd) ∈ recipient_dids s)
       then (Return true, set_recipient_dids (λ r, r ∖ {[ (recipient, rd) ]}) s)
       else (Return false, s).

(** [packDIDCommMessage({ message, packing })] *)
Definition packDIDCommMessage (message : IDIDCommMessage) (packing : string)
    : M IPackedDIDCommMessage :=
  ret (Packed packing message).

(** ** Message builders *)

(** [v4()] and [new Date().toISOString()] are inputs of the builders. *)
Definition createMediateRequestMessage (uuid now : string)
    (recipientDidUrl mediatorDidUrl : string) : IDIDCommMessage :=
  {| dc_type := CoordinateMediation.MEDIATE_REQUEST;
     dc_from := Some recipientDidUrl;
     dc_to := Some mediatorDidUrl;
     dc_id := uuid;
     dc_thid := None;
     dc_created_time := Some now;
     dc_body := Some emptyBody;
     dc_return_route := None |}.

Definition createMediateGrantMessage (uuid now : string)
    (recipientDidUrl mediatorDidUrl thid : string) : IDIDCommMessage :=
  {| dc_type := CoordinateMediation.MEDIATE_GRANT;
     dc_from := Some mediatorDidUrl;
     dc_to := Some recipientDidUrl;
     dc_id := uuid;
     dc_thid := Some thid;
     dc_created_time := Some now;
     dc_body := Some {| routing_did := Some [mediatorDidUrl]; updates := None |};
     dc_return_route := None |}.

Definition createRecipientUpdateMessage (uuid now : string)
    (recipientDidUrl mediatorDidUrl : string) (upds : list Update) : IDIDCommMessage :=
  {| dc_type := CoordinateMediation.RECIPIENT_UPDATE;
     dc_from := Some recipientDidUrl;
     dc_to := Some mediatorDidUrl;
     dc_id := uuid;
     dc_thid := None;
     dc_created_time := Some now;
     dc_body := Some {| routing_did := None; updates := Some upds |};
     dc_return_route := Some "all" |}.

(** [DIDCommMessageMediaType.ENCRYPTED] of [types/message-types]. *)
Definition ENCRYPTED : string := "application/didcomm-encrypted+json".

(** [message.body] on a [Message]: the class keeps the DIDComm body in its
    [data] (where [handleMediateRequest] writes [response.body] and the
    grant branch reads [routing_did]) and has no property [body], so the
    lookup yields [undefined]. *)
Definition messageBody (message : IMessage) : option Body := None.

(** ** The mediator role *)

Module Mediator.
Section handler.

(** What [v4()] and [new Date().toISOString()] return during the call. *)
Variables (uuid now : string).
(** [super.handle]: the rest of the chain behind this handler. *)
Variable super_handle : IMessage → M IMessage.

Definition handleMediateRequest (message : IMessage) : M IMessage :=
  run debug (LogText "MediateRequest Message Received");
  match isSet (from message) with
  | None =>
      throw (Error "invalid_argument: MediateRequest received without `from` set")
  | Some from_ =>
  match isSet (to message) with
  | None =>
      throw (Error "invalid_argument: MediateRequest received without `to` set")
  | Some to_ =>
      (* Grant requests to all recipients *)
      let response := createMediateGrantMessage uuid now from_ to_ (id message) in
      await packedResponse <- packDIDCommMessage response "authcrypt";
      let returnResponse :=
        JsonReturnRouteResponse (dc_id response) packedResponse ENCRYPTED in
      let message :=
        addMetaData message
          {| md_type := "ReturnRouteResponse"; md_value := returnResponse |} in
      (* Save message to track recipients *)
      run DataStore.dataStoreSaveMessage
            {| id := dc_id response; type := dc_type response;
               from := dc_from response; to := dc_to response;
               threadId := dc_thid response; data := dc_body response;
               createdAt := dc_created_time response; metaData := [] |};
      ret message
  end
  end.

Definition updater_add (didDoc : IIdentifier) (u : Update) : M UpdateResult :=
  await r <- dataStoreAddRecipientDid (did didDoc) (recipient_did u);
  if (r : bool) then ret {| update := u; result := success |}
  else ret {| update := u; result := no_change |}.

Definition updater_remove (didDoc : IIdentifier) (u : Update) : M UpdateResult :=
  await r <- dataStoreRemoveRecipientDid (did didDoc) (recipient_did u);
  if (r : bool) then ret {| update := u; result := success |}
  else ret {| update := u; result := no_change |}.

(** [updater[update.action]] *)
Definition updater (a : UpdateAction) : IIdentifier → Update → M UpdateResult :=
  match a with
  | add => updater_add
  | remove => updater_remove
  end.

(** The function destructures [message.body] before anything else; on
    [undefined] that throws a [TypeError].  Past the checks, the
    [updates.map(async ...)] of the source creates one promise per update
    and awaits none of them: [appliedUpdates] holds computations that this
    function does not run, and the inbound message is what it returns. *)
Definition handleRecipientUpdate (message : IMessage) : M IMessage :=
  match messageBody message with
  | None => throw (TypeError "Cannot read properties of undefined (reading 'updates')")
  | Some body =>
      let updates_ := default [] (updates body) in
      run debug (LogText "MediateRecipientUpdate Message Received");
      match isSet (from message) with
      | None =>
          throw (Error "invalid_argument: MediateRecipientUpdate received without `from` set")
      | Some recipient_did_ =>
      match isSet (to message) with
      | None =>
          throw (Error "invalid_argument: MediateRecipientUpdate received without `to` set")
      | Some _ =>
          if Nat.eqb (length updates_) 0 then
            throw (Error "invalid_argument: MediateRecipientUpdate received without `updates` set")
          else
            await didDoc <- didManagerGet recipient_did_;
            let appliedUpdates : list (M UpdateResult) :=
              map (λ u, updater (action u) didDoc u) updates_ in
            ret message
      end
      end
  end.

Definition handle (message : IMessage) : M IMessage :=
  await handled <-
    try_catch
      (if String.eqb (type message) CoordinateMediation.MEDIATE_REQUEST then
         await m <- handleMediateRequest message; ret (Some m)
       else if String.eqb (type message) CoordinateMediation.RECIPIENT_UPDATE then
         await m <- handleRecipientUpdate message; ret (Some m)
       else ret None)
      (λ ex, run debug (LogExn ex); ret None);
  match handled with
  | Some m => ret m
  | None => super_handle message
  end.

End handler.
End Mediator.

(** ** The recipient role *)

Module Recipient.
Section handler.

Variable super_handle : IMessage → M IMessage.

(** [e === from] for an element of a [serviceEndpoint] array, and
    [s.serviceEndpoint === from]: a string is equal to a string with the
    same characters and to no object. *)
Definition endpointIs (from_ : string) (e : Endpoint) : bool :=
  match e with
  | EndpointString s => String.eqb s from_
  | EndpointObject _ => false
  end.

(** The predicate of [did.services.find(...)] in the deny branch. *)
Definition servesFrom (from_ : string) (s : IService) : bool :=
  match serviceEndpoint s with
  | SingleEndpoint e => endpointIs from_ e
  | EndpointArray l => existsb (endpointIs from_) l
  end.

Definition mediatorService (uri : string) : IService :=
  {| svc_id := "didcomm-mediator";
     svc_type := "DIDCommMessaging";
     serviceEndpoint := EndpointArray [EndpointObject uri] |}.

Definition handleGrant (message : IMessage) : M IMessage :=
  match isSet (from message) with
  | None => throw (Error "invalid_argument: MediateGrant received without `from` set")
  | Some from_ =>
  match isSet (to message) with
  | None => throw (Error "invalid_argument: MediateGrant received without `to` set")
  | Some to_ =>
  match isSet (threadId message) with
  | None => throw (Error "invalid_argument: MediateGrant received without `thid` set")
  | Some threadId_ =>
  match data message with
  | None => throw (TypeError "Cannot read properties of null (reading 'routing_did')")
  | Some data_ =>
  match routing_did data_ with
  | None | Some [] =>
      throw (Error "invalid_argument: MediateGrant received with invalid routing_did")
  | Some (routing_did0 :: _) =>
      (* If mediate request was previously sent, add service to DID document *)
      await prevRequestMsg <- DataStore.dataStoreGetMessage threadId_;
      if bool_decide (from prevRequestMsg = Some to_)
         && bool_decide (to prevRequestMsg = Some from_) then
        let service := mediatorService routing_did0 in
        run didManagerAddService to_ service;
        ret (addMetaData message
               {| md_type := "DIDCommMessagingServiceAdded";
                  md_value := JsonService service |})
      else ret message
  end end end end end.

Definition handleDeny (message : IMessage) : M unit :=
  match isSet (from message) with
  | None => throw (Error "invalid_argument: MediateGrant received without `from` set")
  | Some from_ =>
  match isSet (to message) with
  | None => throw (Error "invalid_argument: MediateGrant received without `to` set")
  | Some to_ =>
      (* Delete service if it exists *)
      await did_ <- didManagerGet to_;
      match find (servesFrom from_) (services did_) with
      | Some existingService => didManagerRemoveService to_ (svc_id existingService)
      | None => ret tt
      end
  end end.

(** [handleGrant] and [handleDeny] are the bodies of the two [try] blocks
    of [handle]. *)
Definition handle (message : IMessage) : M IMessage :=
  if String.eqb (type message) CoordinateMediation.MEDIATE_GRANT then
    run debug (LogText "MediateGrant Message Received");
    try_catch (handleGrant message)
              (λ ex, run debug (LogExn ex); ret message)
  else if String.eqb (type message) CoordinateMediation.MEDIATE_DENY then
    run debug (LogText "MediateDeny Message Received");
    run try_catch (handleDeny message) (λ ex, debug (LogExn ex));
    super_handle message
  else super_handle message.

End handler.
End Recipient.

(** ** Observations used in the statements *)

(** The responses a handler attached to the inbound message for delivery
    over the return route. *)
Definition returnRouteResponses (m : IMessage) : list IDIDCommMessage :=
  omap (λ md, match md_value md with
              | JsonReturnRouteResponse _ (Packed _ response) _ => Some response
              | JsonService _ => None
              end) (metaData m).

Definition raises_invalid_argument {A} (r : Outcome A * Agent) : bool :=
  match fst r with
  | Throw e => is_invalid_argument e
  | Return _ => false
  end.

(** The entry [debug(ex)] leaves. *)
Definition logged (e : LogEntry) (s : Agent) : Agent :=
  set_debug_log (λ l, l ++ [e]) s.

(** The message [handleMediateRequest] stores for a response. *)
Definition stored (response : IDIDCommMessage) : IMessage :=
  {| id := dc_id response; type := dc_type response;
     from := dc_from response; to := dc_to response;
     threadId := dc_thid response; data := dc_body response;
     createdAt := dc_created_time response; metaData := [] |}.

(** A grant is correlated when the message stored under its [thid] is one
    this agent sent to the grant's sender: its [from] is the grant's [to]
    and its [to] is the grant's [from]. *)
Definition correlated (s : Agent) (grant : IMessage) : Prop :=
  ∃ thid prev,
    threadId grant = Some thid
    ∧ messages s !! thid = Some prev
    ∧ from prev = to grant
    ∧ to prev = from grant.

(** The services of a did's document, if the did is known. *)
Definition servicesOf (s : Agent) (d : string) : option (list IService) :=
  services <$> identifiers s !! d.

(** ** The agent and the messages of the test suite *)

Module Fixture.

Definition recipient : string :=
  "did:fake:z6MkgbqNU4uF9NKSz5BqJQ4XKVHuQZYcUZP8pXGsJC8nTHwo".
Definition mediator : string :=
  "did:fake:z6MkrPhffVLBZpxH7xvKNyD4sRVZeZsNTWJkLdHdgWbfgNu3".
Definition denyRecipient : string :=
  "did:fake:dENygbqNU4uF9NKSz5BqJQ4XKVHuQZYcUZP8pXGsJC8nTHwo".
Definition mockRecipientDid_00 : string :=
  "did:fake:testgbqNU4uF9NKSz5BqJQ4XKVHuQZYcUZP8pXGsJC8nTHwo".
Definition mockRecipientDid_01 : string :=
  "did:fake:test888NU4uF9NKSz5BqJQ4XKVHuQZYcUZP8pXGsJC8nTHwo".

Definition messagingService (i : string) : IService :=
  {| svc_id := i; svc_type := "DIDCommMessaging";
     serviceEndpoint :=
       SingleEndpoint (EndpointString "http://localhost:3002/messaging") |}.

(** The agent after [beforeAll] and after the DENY policy of
    [denyRecipient] was saved. *)
Definition agent : Agent :=
  {| messages := ∅;
     identifiers :=
       {[ denyRecipient := {| did := denyRecipient; services := [messagingService "msg1"] |};
          recipient := {| did := recipient; services := [messagingService "msg1"] |};
          mediator := {| did := mediator; services := [messagingService "msg2"] |} ]};
     recipient_dids := ∅;
     mediation_policies := {[ denyRecipient := DENY ]};
     mediations := ∅;
     mediateDefaultGrantAll := true;
     debug_log := [] |}.

Definition requestId : string := "858b8fcb-2e8e-44db-a3aa-eac10a63bfa2l".
Definition responseId : string := "158b8fcb-2e8e-44db-a3aa-eac10a63bfa2l".
Definition time : string := "2024-01-01T00:00:00.000Z".

(** A received message of the given type with an empty body. *)
Definition inbound (ty : string) (f t : option string) : IMessage :=
  {| id := requestId; type := ty; from := f; to := t; threadId := None;
     data := Some emptyBody; createdAt := Some time; metaData := [] |}.

Definition mediateRequest (f : string) : IMessage :=
  inbound CoordinateMediation.MEDIATE_REQUEST (Some f) (Some mediator).

Definition recipientUpdate (us : list Update) : IMessage :=
  {| id := requestId; type := CoordinateMediation.RECIPIENT_UPDATE;
     from := Some recipient; to := Some mediator; threadId := None;
     data := Some {| routing_did := None; updates := Some us |};
     createdAt := Some time; metaData := [] |}.

Definition recipientQuery : IMessage :=
  inbound CoordinateMediation.RECIPIENT (Some recipient) (Some mediator).

(** The grant the mediator answers [mediateRequest recipient] with, and a
    deny from the same mediator, as the recipient receives them. *)
Definition mediateGrant : IMessage :=
  {| id := responseId; type := CoordinateMediation.MEDIATE_GRANT;
     from := Some mediator; to := Some recipient; threadId := Some requestId;
     data := Some {| routing_did := Some [mediator]; updates := None |};
     createdAt := Some time; metaData := [] |}.

Definition mediateDeny : IMessage :=
  {| id := responseId; type := CoordinateMediation.MEDIATE_DENY;
     from := Some mediator; to := Some recipient; threadId := Some "";
     data := Some emptyBody; createdAt := None; metaData := [] |}.

(** The recipient's agent once it has sent (and stored) its request. *)
Definition requested : Agent :=
  set_messages (λ ms, <[requestId := mediateRequest recipient]> ms) agent.

(** The identifier [didManagerGet] returns for [recipient], and the
    agent with [mockRecipientDid_00] registered for it. *)
Definition recipientDoc : IIdentifier :=
  {| did := recipient; services := [messagingService "msg1"] |}.
Definition addUpdate : Update :=
  {| recipient_did := mockRecipientDid_00; action := add |}.

(** A chain that ends behind the handler: the message is returned as it
    is.  A chain end that rejects instead. *)
Definition passThrough : IMessage → M IMessage := ret.
Definition rejecting : IMessage → M IMessage :=
  λ _, throw (Error "Unsupported message type").

End Fixture.

(** ** Further builders of the protocol file *)

Definition STATUS_REQUEST_MESSAGE_TYPE : string :=
  "https://didcomm.org/messagepickup/3.0/status-request".

Definition createStatusRequestMessage (uuid : string)
    (recipientDidUrl mediatorDidUrl : string) : IDIDCommMessage :=
  {| dc_type := STATUS_REQUEST_MESSAGE_TYPE;
     dc_from := Some recipientDidUrl;
     dc_to := Some mediatorDidUrl;
     dc_id := uuid;
     dc_thid := None;
     dc_created_time := None;
     dc_body := Some emptyBody;
     dc_return_route := Some "all" |}.

(** ** [SnapLocalStorageStore] *)

Module Snap.

(** A [Json] value kept in the snap's managed state, as far as
    [rawCache?.toString()] tells values apart: [null] has no [toString],
    a string renders as itself, every other value as some string. *)
Inductive JsonValue :=
| JsonNull
| JsonString (s : string)
| JsonOther (rendering : string).

(** The global [snap] the snaps runtime declares: falsy ([None], that is
    [undefined] or [null]), or the snap object with the state
    [snap_manageState] keeps for the snap, which is [null] ([None]) until
    the first update.  A script in which no binding [snap] exists at all
    fails at the guard with a [ReferenceError]; that case is not a world
    of this model. *)
Definition World : Type := option (option (gmap string JsonValue)).

Section store.

(** The entries of the tables; their types are those of [types.ts]. *)
Variable Entry : Type.

(** [VeramoJsonCache]: every table is optional. *)
Record VeramoJsonCache := {
  cache_dids : option (gmap string Entry);
  cache_keys : option (gmap string Entry);
  cache_credentials : option (gmap string Entry);
  cache_claims : option (gmap string Entry);
  cache_presentations : option (gmap string Entry);
  cache_messages : option (gmap string Entry);
  cache_privateKeys : option (gmap string Entry)
}.

(** [JSON.parse] ([None] when it throws) and [JSON.stringify] on caches. *)
Variable JSON_parse : string → option VeramoJsonCache.
Variable JSON_stringify : VeramoJsonCache → string.

Record SnapLocalStorageStore := {
  localStorageKey : string;
  dids : gmap string Entry;
  keys : gmap string Entry;
  privateKeys : gmap string Entry;
  credentials : gmap string Entry;
  claims : gmap string Entry;
  presentations : gmap string Entry;
  messages : gmap string Entry
}.

(** The private constructor. *)
Definition new (key : string) : SnapLocalStorageStore :=
  {| localStorageKey := key; dids := ∅; keys := ∅; privateKeys := ∅;
     credentials := ∅; claims := ∅; presentations := ∅; messages := ∅ |}.

(** The empty object [{}] as a cache. *)
Definition emptyCache : VeramoJsonCache :=
  {| cache_dids := None; cache_keys := None; cache_credentials := None;
     cache_claims := None; cache_presentations := None;
     cache_messages := None; cache_privateKeys := None |}.

Definition getSnapState (w : World) : Outcome (gmap string JsonValue) :=
  match w with
  | None =>
      Throw (Error "global snap object not found. Are you in the right context?")
  | Some snapState => Return (default ∅ snapState)
  end.

(** [rawCache?.toString()] *)
Definition toString (rawCache : option JsonValue) : option string :=
  match rawCache with
  | None | Some JsonNull => None
  | Some (JsonString s) => Some s
  | Some (JsonOther r) => Some r
  end.

Definition load (this : SnapLocalStorageStore) (w : World)
    : Outcome SnapLocalStorageStore :=
  match getSnapState w with
  | Throw e => Throw e
  | Return snapState =>
      let rawCache := snapState !! localStorageKey this in
      let text := match isSet (toString rawCache) with
                  | Some t => t
                  | None => "{}"
                  end in
      let cache := match JSON_parse text with
                   | Some c => c
                   | None => emptyCache
                   end in
      Return {| localStorageKey := localStorageKey this;
                dids := default ∅ (cache_dids cache);
                keys := default ∅ (cache_keys cache);
                privateKeys := default ∅ (cache_privateKeys cache);
                credentials := default ∅ (cache_credentials cache);
                claims := default ∅ (cache_claims cache);
                presentations := default ∅ (cache_presentations cache);
                messages := default ∅ (cache_messages cache) |}
  end.

Definition fromLocalStorage (key : string) (w : World)
    : Outcome SnapLocalStorageStore :=
  load (new key) w.

Definition save (this : SnapLocalStorageStore) (newState : VeramoJsonCache)
    (w : World) : Outcome unit * World :=
  match getSnapState w with
  | Throw e => (Throw e, w)
  | Return snapState =>
      let newLocalStorageState :=
        <[localStorageKey this := JsonString (JSON_stringify newState)]> snapState in
      (Return tt, Some (Some newLocalStorageState))
  end.

(** [notifyUpdate], as the constructor sets it. *)
Definition notifyUpdate (this : SnapLocalStorageStore)
    (_oldState newState : VeramoJsonCache) (w : World) : Outcome unit * World :=
  save this newState w.

(** The cache a store's tables amount to. *)
Definition tablesOf (c : VeramoJsonCache) (key : string) : SnapLocalStorageStore :=
  {| localStorageKey := key;
     dids := default ∅ (cache_dids c);
     keys := default ∅ (cache_keys c);
     privateKeys := default ∅ (cache_privateKeys c);
     credentials := default ∅ (cache_credentials c);
     claims := default ∅ (cache_claims c);
     presentations := default ∅ (cache_presentations c);
     messages := default ∅ (cache_messages c) |}.

End store.

Arguments cache_dids {Entry} _.
Arguments cache_keys {Entry} _.
Arguments cache_credentials {Entry} _.
Arguments cache_claims {Entry} _.
Arguments cache_presentations {Entry} _.
Arguments cache_messages {Entry} _.
Arguments cache_privateKeys {Entry} _.
Arguments emptyCache {Entry}.
Arguments new {Entry} key.
Arguments load {Entry} JSON_parse this w.
Arguments fromLocalStorage {Entry} JSON_parse key w.
Arguments save {Entry} JSON_stringify this newState w.
Arguments notifyUpdate {Entry} JSON_stringify this _oldState newState w.
Arguments tablesOf {Entry} c key.
Arguments localStorageKey {Entry} _.

(** A cache and a toy JSON codec that knows it, for concrete runs. *)
Definition sampleCache : VeramoJsonCache string :=
  {| cache_dids := Some {[ "did:fake:a" := "identifier a" ]};
     cache_keys := None; cache_credentials := None; cache_claims := None;
     cache_presentations := None;
     cache_messages := Some {[ "m1" := "message 1" ]};
     cache_privateKeys := None |}.

Definition sampleStringify (c : VeramoJsonCache string) : string :=
  "{sample}".

Definition sampleParse (text : string) : option (VeramoJsonCache string) :=
  if String.eqb text "{}" then Some emptyCache
  else if String.eqb text "{sample}" then Some sampleCache
  else None.

Definition sampleState : option (gmap string JsonValue) :=
  Some {[ "other-snap-key" := JsonString "unrelated" ]}.

End Snap.

(** What unpacking keeps of a DIDComm message: type, sender, addressee,
    thread and body.  The id handling, time stamp and meta data of the
    unpacked message are the transport's. *)
Definition arrivesAs (sent : IDIDCommMessage) (m : IMessage) : Prop :=
  type m = dc_type sent
  ∧ from m = dc_from sent
  ∧ to m = dc_to sent
  ∧ threadId m = dc_thid sent
  ∧ data m = dc_body sent.

(** ** Further sample data *)

Module Samples.

(** Two services whose endpoint names the mediator's did as a string, the
    way the deny branch looks for it, and a recipient document holding
    them. *)
Definition stringService : IService :=
  {| svc_id := "mediation"; svc_type := "DIDCommMessaging";
     serviceEndpoint := SingleEndpoint (EndpointString Fixture.mediator) |}.

Definition arrayService : IService :=
  {| svc_id := "routing"; svc_type := "DIDCommMessaging";
     serviceEndpoint :=
       EndpointArray [EndpointString "https://example.com/didcomm";
                      EndpointString Fixture.mediator] |}.

Definition servedDoc : IIdentifier :=
  {| did := Fixture.recipient;
     services := [Fixture.messagingService "msg1"; stringService; arrayService] |}.

Definition served : Agent :=
  set_identifiers (λ m, <[Fixture.recipient := servedDoc]> m) Fixture.agent.

(** A status request as it arrives at the handlers. *)
Definition statusRequest : IMessage :=
  stored (createStatusRequestMessage Fixture.requestId Fixture.recipient
            Fixture.mediator).

(** A grant that names no thread, although a message is stored under the
    empty id. *)
Definition threadlessGrant : IMessage :=
  {| id := Fixture.responseId; type := CoordinateMediation.MEDIATE_GRANT;
     from := Some Fixture.mediator; to := Some Fixture.recipient;
     threadId := Some "";
     data := Some {| routing_did := Some [Fixture.mediator]; updates := None |};
     createdAt := None; metaData := [] |}.

Definition emptyIdStored : Agent :=
  set_messages (λ ms, <["" := Fixture.mediateRequest Fixture.recipient]> ms)
    Fixture.agent.

End Samples.

(** ** General facts *)

Lemma isSet_Some o s : isSet o = Some s → o = Some s ∧ s ≠ "".
Proof.
  destruct o as [t|]; simpl; [|discriminate].
  destruct (String.eqb_spec t ""); [discriminate|].
  intros [= ->]. done.
Qed.

Lemma isSet_None o : isSet o = None ↔ o = None ∨ o = Some "".
Proof.
  destruct o as [t|]; simpl.
  - destruct (String.eqb_spec t "") as [->|Hne].
    + split; auto.
    + split; [discriminate|]. intros [?|[= ?]]; [discriminate | contradiction].
  - split; auto.
Qed.

Lemma returnRouteResponses_addMetaData m i packing response ct :
  returnRouteResponses
    (addMetaData m {| md_type := "ReturnRouteResponse";
                      md_value := JsonReturnRouteResponse i (Packed packing response) ct |})
  = returnRouteResponses m ++ [response].
Proof.
  unfold returnRouteResponses, addMetaData; simpl.
  by rewrite omap_app.
Qed.

Module MediatorFacts.
Section facts.
Variables (uuid now : string).

(** What [handleMediateRequest] does on every message with [from] and
    [to] set: no policy, flag or status is read or written. *)
Lemma handleMediateRequest_run message from_ to_ (s : Agent) :
  isSet (from message) = Some from_ →
  isSet (to message) = Some to_ →
  let response := createMediateGrantMessage uuid now from_ to_ (id message) in
  Mediator.handleMediateRequest uuid now message s =
    (Return (addMetaData message
               {| md_type := "ReturnRouteResponse";
                  md_value := JsonReturnRouteResponse uuid
                                (Packed "authcrypt" response) ENCRYPTED |}),
     set_messages (λ ms, <[uuid := stored response]> ms)
       (logged (LogText "MediateRequest Message Received") s)).
Proof.
  intros Hf Ht. unfold Mediator.handleMediateRequest, bind, debug; simpl.
  rewrite Hf, Ht. reflexivity.
Qed.

Lemma handleMediateRequest_no_from message (s : Agent) :
  isSet (from message) = None →
  Mediator.handleMediateRequest uuid now message s =
    (Throw (Error "invalid_argument: MediateRequest received without `from` set"),
     logged (LogText "MediateRequest Message Received") s).
Proof.
  intros Hf. unfold Mediator.handleMediateRequest, bind, debug; simpl.
  rewrite Hf. reflexivity.
Qed.

Lemma handleMediateRequest_no_to message from_ (s : Agent) :
  isSet (from message) = Some from_ →
  isSet (to message) = None →
  Mediator.handleMediateRequest uuid now message s =
    (Throw (Error "invalid_argument: MediateRequest received without `to` set"),
     logged (LogText "MediateRequest Message Received") s).
Proof.
  intros Hf Ht. unfold Mediator.handleMediateRequest, bind, debug; simpl.
  rewrite Hf, Ht. reflexivity.
Qed.

(** [handleRecipientUpdate] gets no further than its first line, whatever
    the message and the agent. *)
Lemma handleRecipientUpdate_throws message (s : Agent) :
  Mediator.handleRecipientUpdate message s
  = (Throw (TypeError "Cannot read properties of undefined (reading 'updates')"), s).
Proof. reflexivity. Qed.

End facts.
End MediatorFacts.

(** ** Mediate requests *)

Module MediateRequest.
Section properties.
Variables (uuid now : string).

(** C1. The specification states: for a did with a stored DENY policy, a
    well-formed mediate-request is answered by a mediate-deny with [thid]
    the request id and a null body, and the did's mediation status becomes
    DENIED.  What [handleMediateRequest] does instead: whatever policy is
    stored for the requester, DENY included, the one response it attaches
    is the mediate-grant built by [createMediateGrantMessage], not a
    mediate-deny; its body is [{routing_did: [to]}], not null; and the
    mediation statuses are left as they were, so no DENIED status is
    recorded. *)
Theorem deny_policy_is_granted message from_ to_ (s : Agent) :
  isSet (from message) = Some from_ →
  isSet (to message) = Some to_ →
  mediation_policies s !! from_ = Some DENY →
  ∃ m s' response,
    Mediator.handleMediateRequest uuid now message s = (Return m, s')
    ∧ returnRouteResponses m = returnRouteResponses message ++ [response]
    ∧ dc_type response = CoordinateMediation.MEDIATE_GRANT
    ∧ dc_type response ≠ CoordinateMediation.MEDIATE_DENY
    ∧ dc_thid response = Some (id message)
    ∧ dc_body response = Some {| routing_did := Some [to_]; updates := None |}
    ∧ mediations s' = mediations s.
Proof.
  intros Hf Ht _. eexists _, _, _.
  split; [by apply MediatorFacts.handleMediateRequest_run|].
  split; [apply returnRouteResponses_addMetaData|].
  split; [reflexivity|]. split; [discriminate|]. repeat split.
Qed.

(** C2. For a requester with no stored policy and the default-grant-all
    flag on, a well-formed mediate-request is answered by a mediate-grant
    from the mediator (the request's [to]) to the requester (the
    request's [from]), with [thid] the request id and [routing_did] the
    one-element list of the mediator's DID, and the grant is saved in the
    message repository under its own id.  The mediation statuses are left
    as they were: no GRANTED record is written for the requester. *)
Theorem grant_without_mediation_record message from_ to_ (s : Agent) :
  isSet (from message) = Some from_ →
  isSet (to message) = Some to_ →
  mediation_policies s !! from_ = None →
  mediateDefaultGrantAll s = true →
  ∃ m s' response,
    Mediator.handleMediateRequest uuid now message s = (Return m, s')
    ∧ returnRouteResponses m = returnRouteResponses message ++ [response]
    ∧ dc_type response = CoordinateMediation.MEDIATE_GRANT
    ∧ dc_from response = Some to_
    ∧ dc_to response = Some from_
    ∧ dc_thid response = Some (id message)
    ∧ dc_body response = Some {| routing_did := Some [to_]; updates := None |}
    ∧ messages s' !! dc_id response = Some (stored response)
    ∧ mediations s' = mediations s.
Proof.
  intros Hf Ht _ _. eexists _, _, _.
  split; [by apply MediatorFacts.handleMediateRequest_run|].
  split; [apply returnRouteResponses_addMetaData|].
  repeat split. simpl. apply lookup_insert_eq.
Qed.

End properties.

(** The test suite's deny case: [denyRecipient] has the DENY policy. *)
Lemma deny_policy_is_granted_witness :
  ∃ m s' response,
    Mediator.handleMediateRequest Fixture.responseId Fixture.time
      (Fixture.mediateRequest Fixture.denyRecipient) Fixture.agent = (Return m, s')
    ∧ returnRouteResponses m =
        returnRouteResponses (Fixture.mediateRequest Fixture.denyRecipient)
        ++ [response]
    ∧ dc_type response = CoordinateMediation.MEDIATE_GRANT
    ∧ dc_type response ≠ CoordinateMediation.MEDIATE_DENY
    ∧ dc_thid response = Some Fixture.requestId
    ∧ dc_body response =
        Some {| routing_did := Some [Fixture.mediator]; updates := None |}
    ∧ mediations s' = mediations Fixture.agent.
Proof.
  apply (deny_policy_is_granted Fixture.responseId Fixture.time
           (Fixture.mediateRequest Fixture.denyRecipient)
           Fixture.denyRecipient Fixture.mediator Fixture.agent);
    reflexivity.
Defined.

(** The test suite's grant case: [recipient] has no policy. *)
Lemma grant_without_mediation_record_witness :
  ∃ m s' response,
    Mediator.handleMediateRequest Fixture.responseId Fixture.time
      (Fixture.mediateRequest Fixture.recipient) Fixture.agent = (Return m, s')
    ∧ returnRouteResponses m =
        returnRouteResponses (Fixture.mediateRequest Fixture.recipient) ++ [response]
    ∧ dc_type response = CoordinateMediation.MEDIATE_GRANT
    ∧ dc_from response = Some Fixture.mediator
    ∧ dc_to response = Some Fixture.recipient
    ∧ dc_thid response = Some Fixture.requestId
    ∧ dc_body response =
        Some {| routing_did := Some [Fixture.mediator]; updates := None |}
    ∧ messages s' !! dc_id response = Some (stored response)
    ∧ mediations s' = mediations Fixture.agent.
Proof.
  apply (grant_without_mediation_record Fixture.responseId Fixture.time
           (Fixture.mediateRequest Fixture.recipient)
           Fixture.recipient Fixture.mediator Fixture.agent);
    reflexivity.
Defined.

End MediateRequest.


(** ** The mediator's [handle] *)

Module MediatorHandleFacts.
Section facts.
Variables (uuid now : string).
Variable super_handle : IMessage → M IMessage.

Lemma handle_other_type message (s : Agent) :
  type message ≠ CoordinateMediation.MEDIATE_REQUEST →
  type message ≠ CoordinateMediation.RECIPIENT_UPDATE →
  Mediator.handle uuid now super_handle message s = super_handle message s.
Proof.
  intros H1 H2. unfold Mediator.handle, bind, try_catch.
  destruct (String.eqb_spec (type message) CoordinateMediation.MEDIATE_REQUEST);
    [done|].
  destruct (String.eqb_spec (type message) CoordinateMediation.RECIPIENT_UPDATE);
    [done|].
  reflexivity.
Qed.

Lemma handle_request_thrown message e (s s1 : Agent) :
  type message = CoordinateMediation.MEDIATE_REQUEST →
  Mediator.handleMediateRequest uuid now message s = (Throw e, s1) →
  Mediator.handle uuid now super_handle message s =
    super_handle message (logged (LogExn e) s1).
Proof.
  intros Hty Hrun. unfold Mediator.handle, bind, try_catch.
  rewrite Hty, String.eqb_refl, Hrun. reflexivity.
Qed.

Lemma handle_update_thrown message e (s s1 : Agent) :
  type message = CoordinateMediation.RECIPIENT_UPDATE →
  Mediator.handleRecipientUpdate message s = (Throw e, s1) →
  Mediator.handle uuid now super_handle message s =
    super_handle message (logged (LogExn e) s1).
Proof.
  intros Hty Hrun. unfold Mediator.handle, bind, try_catch.
  rewrite Hty.
  assert (String.eqb CoordinateMediation.RECIPIENT_UPDATE
            CoordinateMediation.MEDIATE_REQUEST = false) as -> by reflexivity.
  rewrite String.eqb_refl, Hrun. reflexivity.
Qed.

End facts.
End MediatorHandleFacts.

(** ** Recipient updates and queries at the mediator *)

Module RecipientUpdate.
Section properties.
Variables (uuid now : string).
Variable super_handle : IMessage → M IMessage.

(** C3. The specification states: for a recipient-update with a non-empty
    list of updates, [handleRecipientUpdate] builds a
    recipient-update-response from the mediator to the recipient, [thid]
    the request id, with one result per update in the order of the
    updates.  What the program does instead, for every recipient-update:
    [handleRecipientUpdate] reads [message.body], which the message it is
    given does not have, and throws a [TypeError] before its first check;
    [handle] catches and logs the error and hands the inbound message to
    the rest of the chain with every store as it was.  No response is
    built, attached or saved, and no update is applied. *)
Theorem no_update_response_built message (s : Agent) :
  type message = CoordinateMediation.RECIPIENT_UPDATE →
  ∃ text,
    Mediator.handleRecipientUpdate message s = (Throw (TypeError text), s)
    ∧ Mediator.handle uuid now super_handle message s
      = super_handle message (logged (LogExn (TypeError text)) s).
Proof.
  intros Hty. eexists. split.
  - apply MediatorFacts.handleRecipientUpdate_throws.
  - apply MediatorHandleFacts.handle_update_thrown; [done|].
    apply MediatorFacts.handleRecipientUpdate_throws.
Qed.

(** C4. The specification states: a recipient-query with [from] and [to]
    is answered with the registered recipient dids of [from] as
    [body.dids].  What [handle] does instead: it dispatches on
    mediate-request and recipient-update only, so a recipient-query, as any
    message of another type, is handed to the rest of the chain as it came
    and with the agent as it was; no response is built.  (That nothing is mutated is the part of the
    statement that does hold.) *)
Theorem recipient_query_not_answered message (s : Agent) :
  type message ≠ CoordinateMediation.MEDIATE_REQUEST →
  type message ≠ CoordinateMediation.RECIPIENT_UPDATE →
  Mediator.handle uuid now super_handle message s = super_handle message s.
Proof. apply MediatorHandleFacts.handle_other_type. Qed.


(** C8. The specification states: [handleMediateRequest] fails with
    [invalid_argument] whenever [from] or [to] is absent, and
    [handleRecipientUpdate] whenever [from] or [to] is absent or
    [body.updates] is empty, and neither does otherwise.  For
    [handleMediateRequest] this is so: it fails with an [invalid_argument]
    error exactly when [from] or [to] is not set (absent or the empty
    string, what the source tests with [!from]).  [handleRecipientUpdate]
    has the three checks but never reaches them: whatever the message, a
    recipient-update without [from] included, it throws the [TypeError] of
    its first line, which is no [invalid_argument] error. *)
Theorem invalid_argument_only_from_mediate_request message (s : Agent) :
  (raises_invalid_argument (Mediator.handleMediateRequest uuid now message s) = true
   ↔ isSet (from message) = None ∨ isSet (to message) = None)
  ∧ raises_invalid_argument (Mediator.handleRecipientUpdate message s) = false
  ∧ ∃ text, Mediator.handleRecipientUpdate message s = (Throw (TypeError text), s).
Proof.
  split; [|split].
  - destruct (isSet (from message)) as [from_|] eqn:Hf.
    + destruct (isSet (to message)) as [to_|] eqn:Ht.
      * rewrite (MediatorFacts.handleMediateRequest_run uuid now message from_ to_ s Hf Ht).
        unfold raises_invalid_argument; simpl. split; [done|]. intros [?|?]; done.
      * rewrite (MediatorFacts.handleMediateRequest_no_to uuid now message from_ s Hf Ht).
        split; [auto|reflexivity].
    + rewrite (MediatorFacts.handleMediateRequest_no_from uuid now message s Hf).
      split; [auto|reflexivity].
  - by rewrite MediatorFacts.handleRecipientUpdate_throws.
  - eexists. apply MediatorFacts.handleRecipientUpdate_throws.
Qed.

End properties.

(** The test suite's update [[mockRecipientDid_00: add]], at the end of
    the chain. *)
Lemma no_update_response_built_witness :
  ∃ text,
    Mediator.handleRecipientUpdate
      (Fixture.recipientUpdate [Fixture.addUpdate]) Fixture.agent
      = (Throw (TypeError text), Fixture.agent)
    ∧ Mediator.handle Fixture.responseId Fixture.time Fixture.passThrough
        (Fixture.recipientUpdate [Fixture.addUpdate]) Fixture.agent
      = (Return (Fixture.recipientUpdate [Fixture.addUpdate]),
         logged (LogExn (TypeError text)) Fixture.agent).
Proof.
  apply (no_update_response_built Fixture.responseId Fixture.time
           Fixture.passThrough (Fixture.recipientUpdate [Fixture.addUpdate])
           Fixture.agent).
  reflexivity.
Defined.

(** The test suite's recipient-query, at the end of the chain. *)
Lemma recipient_query_not_answered_witness :
  Mediator.handle Fixture.responseId Fixture.time Fixture.passThrough
    Fixture.recipientQuery Fixture.agent
  = (Return Fixture.recipientQuery, Fixture.agent).
Proof.
  apply (recipient_query_not_answered Fixture.responseId Fixture.time
           Fixture.passThrough Fixture.recipientQuery Fixture.agent);
    discriminate.
Defined.


End RecipientUpdate.

(** ** The recipient's [handle] *)

Module RecipientHandleFacts.
Section facts.
Variable super_handle : IMessage → M IMessage.

Lemma handle_grant message (s : Agent) :
  type message = CoordinateMediation.MEDIATE_GRANT →
  Recipient.handle super_handle message s =
    match Recipient.handleGrant message
            (logged (LogText "MediateGrant Message Received") s) with
    | (Return m, s1) => (Return m, s1)
    | (Throw e, s1) => (Return message, logged (LogExn e) s1)
    end.
Proof.
  intros Hty. unfold Recipient.handle. rewrite Hty, String.eqb_refl.
  unfold bind at 1, debug at 1, try_catch.
  fold (logged (LogText "MediateGrant Message Received") s).
  destruct (Recipient.handleGrant message _) as [[m|e] s1]; reflexivity.
Qed.

Lemma handle_deny message (s : Agent) :
  type message = CoordinateMediation.MEDIATE_DENY →
  Recipient.handle super_handle message s =
    match Recipient.handleDeny message
            (logged (LogText "MediateDeny Message Received") s) with
    | (Return _, s1) => super_handle message s1
    | (Throw e, s1) => super_handle message (logged (LogExn e) s1)
    end.
Proof.
  intros Hty. unfold Recipient.handle. rewrite Hty.
  assert (String.eqb CoordinateMediation.MEDIATE_DENY
            CoordinateMediation.MEDIATE_GRANT = false) as -> by reflexivity.
  rewrite String.eqb_refl.
  unfold bind, debug at 1, try_catch.
  fold (logged (LogText "MediateDeny Message Received") s).
  destruct (Recipient.handleDeny message _) as [[[]|e] s1]; reflexivity.
Qed.

(** An uncorrelated grant ends the [try] block without a call to
    [didManagerAddService]: by an exception, or with the message as it
    came; the agent is not touched. *)
Lemma handleGrant_uncorrelated message (s : Agent) :
  ¬ correlated s message →
  ∃ o, Recipient.handleGrant message s = (o, s)
       ∧ (o = Return message ∨ ∃ e, o = Throw e).
Proof.
  intros Hun. unfold Recipient.handleGrant.
  destruct (isSet (from message)) as [from_|] eqn:Hf; [|unfold throw; eauto].
  destruct (isSet (to message)) as [to_|] eqn:Ht; [|unfold throw; eauto].
  destruct (isSet (threadId message)) as [thid|] eqn:Hth; [|unfold throw; eauto].
  destruct (data message) as [data_|]; [|unfold throw; eauto].
  destruct (routing_did data_) as [[|r0 rs]|]; try (unfold throw; eauto).
  unfold bind at 1, DataStore.dataStoreGetMessage.
  destruct (messages s !! thid) as [prev|] eqn:Hprev; [|eauto].
  destruct (bool_decide (from prev = Some to_)) eqn:H1; simpl;
    [|unfold ret; eauto].
  destruct (bool_decide (to prev = Some from_)) eqn:H2; simpl;
    [|unfold ret; eauto].
  exfalso. apply Hun.
  apply isSet_Some in Hf as [Hf _], Ht as [Ht _], Hth as [Hth _].
  apply bool_decide_eq_true_1 in H1, H2.
  exists thid, prev. rewrite Hf, Ht. done.
Qed.

(** The deny branch never finds the service a grant installs: its endpoint
    is an array with one object, and [includes(from)] compares that object
    with the string [from]. *)
Lemma servesFrom_mediatorService from_ uri :
  Recipient.servesFrom from_ (Recipient.mediatorService uri) = false.
Proof. reflexivity. Qed.

Lemma find_servesFrom_upsert from_ uri (l : list IService) :
  find (Recipient.servesFrom from_) (upsertService (Recipient.mediatorService uri) l)
  = find (Recipient.servesFrom from_)
      (filter (λ x, svc_id x ≠ svc_id (Recipient.mediatorService uri)) l).
Proof.
  unfold upsertService.
  induction (filter _ l) as [|x xs IH]; simpl; [reflexivity|].
  destruct (Recipient.servesFrom from_ x); [reflexivity|apply IH].
Qed.

(** A correlated, well-formed grant upserts the mediator service into the
    document of the grant's [to]. *)
Lemma handle_correlated_grant message from_ to_ thid body r0 rs prev ident
    (s : Agent) :
  type message = CoordinateMediation.MEDIATE_GRANT →
  isSet (from message) = Some from_ →
  isSet (to message) = Some to_ →
  isSet (threadId message) = Some thid →
  data message = Some body →
  routing_did body = Some (r0 :: rs) →
  messages s !! thid = Some prev →
  from prev = Some to_ →
  to prev = Some from_ →
  identifiers s !! to_ = Some ident →
  ∃ s',
    Recipient.handle super_handle message s
    = (Return (addMetaData message
                 {| md_type := "DIDCommMessagingServiceAdded";
                    md_value := JsonService (Recipient.mediatorService r0) |}), s')
    ∧ servicesOf s' to_
      = Some (upsertService (Recipient.mediatorService r0) (services ident))
    ∧ messages s' = messages s.
Proof.
  intros Hty Hf Ht Hth Hd Hr Hprev Hpf Hpt Hid.
  rewrite handle_grant by done.
  unfold Recipient.handleGrant. rewrite Hf, Ht, Hth, Hd, Hr.
  unfold bind at 1, DataStore.dataStoreGetMessage.
  change (messages (logged _ s)) with (messages s). rewrite Hprev.
  rewrite !bool_decide_eq_true_2 by done.
  unfold bind, didManagerAddService, bind, didManagerGet.
  cbn [andb]. cbv beta.
  change (identifiers (logged _ s)) with (identifiers s). rewrite Hid.
  eexists. split; [reflexivity|]. split; [|reflexivity].
  unfold servicesOf. simpl. by rewrite lookup_insert_eq.
Qed.

(** A deny that finds no service of the sender leaves the agent alone and
    is no error: the message goes on to the rest of the chain. *)
Lemma handle_deny_nothing_found message from_ to_ ident (s : Agent) :
  type message = CoordinateMediation.MEDIATE_DENY →
  isSet (from message) = Some from_ →
  isSet (to message) = Some to_ →
  identifiers s !! to_ = Some ident →
  find (Recipient.servesFrom from_) (services ident) = None →
  Recipient.handle super_handle message s
  = super_handle message (logged (LogText "MediateDeny Message Received") s).
Proof.
  intros Hty Hf Ht Hid Hfind. rewrite handle_deny by done.
  unfold Recipient.handleDeny. rewrite Hf, Ht.
  unfold bind, didManagerGet.
  change (identifiers (logged _ s)) with (identifiers s).
  rewrite Hid, Hfind. reflexivity.
Qed.

(** So a deny that follows a grant, on a document none of whose other
    services serves the sender, removes nothing: the service the grant
    installed is still there. *)
Lemma handle_deny_after_grant message from_ to_ ident uri l (s : Agent) :
  type message = CoordinateMediation.MEDIATE_DENY →
  isSet (from message) = Some from_ →
  isSet (to message) = Some to_ →
  identifiers s !! to_ = Some ident →
  services ident = upsertService (Recipient.mediatorService uri) l →
  find (Recipient.servesFrom from_)
    (filter (λ x, svc_id x ≠ svc_id (Recipient.mediatorService uri)) l) = None →
  Recipient.handle super_handle message s
  = super_handle message (logged (LogText "MediateDeny Message Received") s).
Proof.
  intros Hty Hf Ht Hid Hsv Hfind.
  apply (handle_deny_nothing_found message from_ to_ ident); try done.
  by rewrite Hsv, find_servesFrom_upsert.
Qed.

End facts.
End RecipientHandleFacts.

(** ** Grants and denies at the recipient *)

Module MediateResponse.
Section properties.
Variable super_handle : IMessage → M IMessage.

(** C5. A mediate-grant that is not correlated (no message is stored under
    its [thid], or the stored one was not sent by the grant's [to] to the
    grant's [from]) leaves every DID document as it was: [handle] returns
    the message as it came and no service is added. *)
Theorem uncorrelated_grant_adds_no_service message (s : Agent) :
  type message = CoordinateMediation.MEDIATE_GRANT →
  ¬ correlated s message →
  ∃ s', Recipient.handle super_handle message s = (Return message, s')
        ∧ identifiers s' = identifiers s.
Proof.
  intros Hty Hun. rewrite RecipientHandleFacts.handle_grant by done.
  destruct (RecipientHandleFacts.handleGrant_uncorrelated message
              (logged (LogText "MediateGrant Message Received") s))
    as (o & -> & [->|[e ->]]); [done|..]; eauto.
Qed.

End properties.

(** A grant whose [thid] names no stored message. *)
Lemma uncorrelated_grant_adds_no_service_witness :
  ∃ s', Recipient.handle Fixture.passThrough Fixture.mediateGrant Fixture.agent
          = (Return Fixture.mediateGrant, s')
        ∧ identifiers s' = identifiers Fixture.agent.
Proof.
  apply (uncorrelated_grant_adds_no_service Fixture.passThrough
           Fixture.mediateGrant Fixture.agent); [reflexivity|].
  intros (thid & prev & Hth & Hprev & _).
  injection Hth as <-. vm_compute in Hprev. discriminate.
Defined.

(** C6. The specification states: a correlated grant installs the
    mediator service in the recipient's DID document, a later deny from the same mediator removes
    that service, and a deny that finds no such service is not an error.
    On the test suite's agent: the correlated grant installs the service
    (under the id the handler passes, [didcomm-mediator], with endpoint
    [[{uri: mediator}]]), and the deny from the same mediator is handled
    without an error, but it does not find that service and the document
    keeps it. *)
Theorem deny_keeps_granted_service :
  let granted :=
    Recipient.handle Fixture.passThrough Fixture.mediateGrant Fixture.requested in
  let denied :=
    Recipient.handle Fixture.passThrough Fixture.mediateDeny (snd granted) in
  correlated Fixture.requested Fixture.mediateGrant
  ∧ servicesOf (snd granted) Fixture.recipient =
      Some [Fixture.messagingService "msg1";
            Recipient.mediatorService Fixture.mediator]
  ∧ fst denied = Return Fixture.mediateDeny
  ∧ servicesOf (snd denied) Fixture.recipient =
      Some [Fixture.messagingService "msg1";
            Recipient.mediatorService Fixture.mediator].
Proof.
  split; [|by vm_compute].
  exists Fixture.requestId, (Fixture.mediateRequest Fixture.recipient).
  by vm_compute.
Qed.

End MediateResponse.

(** ** Errors at the handler boundary *)

Module Propagation.

(** C9, as stated, fails for a mediate-grant at the recipient: the grant
    below has no [from], the validation error is caught, and [handle]
    returns the message itself; the rest of the chain, which here rejects
    every message, is never given it. *)
Lemma invalid_grant_is_not_forwarded :
  let grant :=
    Fixture.inbound CoordinateMediation.MEDIATE_GRANT None (Some Fixture.recipient) in
  raises_invalid_argument
    (Recipient.handleGrant grant
       (logged (LogText "MediateGrant Message Received") Fixture.agent)) = true
  ∧ ¬ ∃ s', Recipient.handle Fixture.rejecting grant Fixture.agent
            = Fixture.rejecting grant s'.
Proof.
  split; [reflexivity|]. intros [s' H]. vm_compute in H. discriminate.
Qed.

Section properties.
Variables (uuid now : string).
Variable super_handle : IMessage → M IMessage.

(** C9, amended.  An exception thrown inside a role handler, a validation
    failure in particular, is caught and logged by [handle] and is not the
    outcome of [handle].  At the mediator, and in the recipient's deny
    branch, the message goes on to the rest of the chain as it came.  In
    the recipient's grant branch [handle] returns the message as it came,
    without handing it on. *)
Theorem thrown_error_is_caught message e (s s1 : Agent) :
  (type message = CoordinateMediation.MEDIATE_REQUEST →
   Mediator.handleMediateRequest uuid now message s = (Throw e, s1) →
   Mediator.handle uuid now super_handle message s
     = super_handle message (logged (LogExn e) s1))
  ∧ (type message = CoordinateMediation.RECIPIENT_UPDATE →
     Mediator.handleRecipientUpdate message s = (Throw e, s1) →
     Mediator.handle uuid now super_handle message s
       = super_handle message (logged (LogExn e) s1))
  ∧ (type message = CoordinateMediation.MEDIATE_DENY →
     Recipient.handleDeny message
       (logged (LogText "MediateDeny Message Received") s) = (Throw e, s1) →
     Recipient.handle super_handle message s
       = super_handle message (logged (LogExn e) s1))
  ∧ (type message = CoordinateMediation.MEDIATE_GRANT →
     Recipient.handleGrant message
       (logged (LogText "MediateGrant Message Received") s) = (Throw e, s1) →
     Recipient.handle super_handle message s
       = (Return message, logged (LogExn e) s1)).
Proof.
  repeat split; intros Hty Hrun.
  - by apply MediatorHandleFacts.handle_request_thrown.
  - by apply MediatorHandleFacts.handle_update_thrown.
  - rewrite RecipientHandleFacts.handle_deny by done. by rewrite Hrun.
  - rewrite RecipientHandleFacts.handle_grant by done. by rewrite Hrun.
Qed.

End properties.

(** A mediate-request, a recipient-update, a deny and a grant without
    [from], each in front of a chain that rejects.  For the
    recipient-update the error caught is the [TypeError] of the first line
    of [handleRecipientUpdate]. *)
Lemma thrown_error_is_caught_witness :
  let log t e s := logged (LogExn (Error e)) (logged (LogText t) s) in
  Mediator.handle Fixture.responseId Fixture.time Fixture.rejecting
    (Fixture.inbound CoordinateMediation.MEDIATE_REQUEST None (Some Fixture.mediator))
    Fixture.agent
  = (Throw (Error "Unsupported message type"),
     log "MediateRequest Message Received"
       "invalid_argument: MediateRequest received without `from` set" Fixture.agent)
  ∧ Mediator.handle Fixture.responseId Fixture.time Fixture.rejecting
      (Fixture.inbound CoordinateMediation.RECIPIENT_UPDATE None (Some Fixture.mediator))
      Fixture.agent
    = (Throw (Error "Unsupported message type"),
       logged
         (LogExn (TypeError "Cannot read properties of undefined (reading 'updates')"))
         Fixture.agent)
  ∧ Recipient.handle Fixture.rejecting
      (Fixture.inbound CoordinateMediation.MEDIATE_DENY None (Some Fixture.recipient))
      Fixture.agent
    = (Throw (Error "Unsupported message type"),
       log "MediateDeny Message Received"
         "invalid_argument: MediateGrant received without `from` set" Fixture.agent)
  ∧ Recipient.handle Fixture.rejecting
      (Fixture.inbound CoordinateMediation.MEDIATE_GRANT None (Some Fixture.recipient))
      Fixture.agent
    = (Return
         (Fixture.inbound CoordinateMediation.MEDIATE_GRANT None (Some Fixture.recipient)),
       log "MediateGrant Message Received"
         "invalid_argument: MediateGrant received without `from` set" Fixture.agent).
Proof.
  intros log. split; [|split; [|split]].
  - apply (proj1 (thrown_error_is_caught Fixture.responseId Fixture.time
                    Fixture.rejecting _ _ Fixture.agent _)); reflexivity.
  - apply (proj1 (proj2 (thrown_error_is_caught Fixture.responseId Fixture.time
                           Fixture.rejecting _ _ Fixture.agent _))); reflexivity.
  - apply (proj1 (proj2 (proj2 (thrown_error_is_caught Fixture.responseId
                                  Fixture.time Fixture.rejecting _ _
                                  Fixture.agent _)))); reflexivity.
  - apply (proj2 (proj2 (proj2 (thrown_error_is_caught Fixture.responseId
                                  Fixture.time Fixture.rejecting _ _
                                  Fixture.agent _)))); reflexivity.
Defined.

End Propagation.

(** ** The methods of the [DataStore] plugin *)

Module DataStoreMethods.

(** C10. The [methods] map the constructor of [DataStore] builds has the
    eight message, credential and presentation operations as its keys and
    no others; [dataStoreAddRecipientDid], [dataStoreRemoveRecipientDid]
    and [dataStoreListRecipientDids] are not among them. *)
Theorem recipient_did_methods_not_registered :
  DataStore.methods.*1 =
    [ "dataStoreSaveMessage"; "dataStoreGetMessage"; "dataStoreDeleteMessage";
      "dataStoreDeleteVerifiableCredential"; "dataStoreSaveVerifiableCredential";
      "dataStoreGetVerifiableCredential"; "dataStoreSaveVerifiablePresentation";
      "dataStoreGetVerifiablePresentation" ]
  ∧ (∀ name, is_Some (DataStore.method name) ↔ name ∈ DataStore.methods.*1)
  ∧ DataStore.method "dataStoreAddRecipientDid" = None
  ∧ DataStore.method "dataStoreRemoveRecipientDid" = None
  ∧ DataStore.method "dataStoreListRecipientDids" = None.
Proof.
  split; [reflexivity|]. split; [|by vm_compute].
  intros name. unfold DataStore.method.
  rewrite <- not_eq_None_Some, <- not_elem_of_list_to_map.
  destruct (decide (name ∈ DataStore.methods.*1)); tauto.
Qed.

End DataStoreMethods.

(** ** The message repository of the data store *)

Module MessageRepository.

(** X1. A message saved under a non-empty id that no stored message has
    yet is the one [dataStoreGetMessage] then returns for that id, and the
    messages under all other ids stay as they were. *)
Theorem save_then_get message (s : Agent) :
  id message ≠ "" →
  messages s !! id message = None →
  ∃ s',
    DataStore.dataStoreSaveMessage message s = (Return (id message), s')
    ∧ DataStore.dataStoreGetMessage (id message) s' = (Return message, s')
    ∧ ∀ i, i ≠ id message → messages s' !! i = messages s !! i.
Proof.
  intros _ _. eexists. split; [reflexivity|]. split.
  - unfold DataStore.dataStoreGetMessage; simpl.
    by rewrite lookup_insert_eq.
  - intros i Hi; simpl. by rewrite lookup_insert_ne.
Qed.

(** The request of the tests, saved on the agent that has no message
    yet. *)
Lemma save_then_get_witness :
  ∃ s',
    DataStore.dataStoreSaveMessage (Fixture.mediateRequest Fixture.recipient)
      Fixture.agent = (Return Fixture.requestId, s')
    ∧ DataStore.dataStoreGetMessage Fixture.requestId s'
      = (Return (Fixture.mediateRequest Fixture.recipient), s')
    ∧ ∀ i, i ≠ Fixture.requestId →
           messages s' !! i = messages Fixture.agent !! i.
Proof.
  apply (save_then_get (Fixture.mediateRequest Fixture.recipient) Fixture.agent);
    [discriminate | reflexivity].
Defined.

(** X2. [dataStoreDeleteMessage] answers [false] and changes nothing when
    no message has the id.  When one has, it answers [true]; afterwards
    [dataStoreGetMessage] on that id fails with [not_found], a second
    delete answers [false], and the messages under other ids are as they
    were. *)
Theorem delete_message i (s : Agent) :
  (messages s !! i = None →
   DataStore.dataStoreDeleteMessage i s = (Return false, s))
  ∧ (is_Some (messages s !! i) →
     ∃ s',
       DataStore.dataStoreDeleteMessage i s = (Return true, s')
       ∧ DataStore.dataStoreGetMessage i s'
         = (Throw (Error "not_found: Message not found"), s')
       ∧ DataStore.dataStoreDeleteMessage i s' = (Return false, s')
       ∧ ∀ j, j ≠ i → messages s' !! j = messages s !! j).
Proof.
  split.
  - intros Hn. unfold DataStore.dataStoreDeleteMessage. by rewrite Hn.
  - intros [m Hm]. eexists. unfold DataStore.dataStoreDeleteMessage at 1.
    rewrite Hm. split; [reflexivity|].
    unfold DataStore.dataStoreGetMessage, DataStore.dataStoreDeleteMessage; simpl.
    rewrite lookup_delete_eq. repeat split.
    intros j Hj. by rewrite lookup_delete_ne.
Qed.

Lemma delete_message_witness :
  DataStore.dataStoreDeleteMessage Fixture.responseId Fixture.requested
    = (Return false, Fixture.requested)
  ∧ ∃ s',
      DataStore.dataStoreDeleteMessage Fixture.requestId Fixture.requested
        = (Return true, s')
      ∧ DataStore.dataStoreGetMessage Fixture.requestId s'
        = (Throw (Error "not_found: Message not found"), s')
      ∧ DataStore.dataStoreDeleteMessage Fixture.requestId s' = (Return false, s')
      ∧ ∀ j, j ≠ Fixture.requestId →
             messages s' !! j = messages Fixture.requested !! j.
Proof.
  split.
  - apply (proj1 (delete_message Fixture.responseId Fixture.requested)).
    reflexivity.
  - apply (proj2 (delete_message Fixture.requestId Fixture.requested)).
    eexists. reflexivity.
Defined.

End MessageRepository.

(** ** More on the mediator role *)

Module MediatorProperties.
Section properties.
Variables (uuid now : string).
Variable super_handle : IMessage → M IMessage.

(** X3. A mediate-request with [from] and [to] set ends the chain at the
    mediator: [handle] answers what [handleMediateRequest] answers and the
    rest of the chain is not consulted.  The message returned is the
    inbound one with one meta data entry appended, the repository gains
    the response under the response's id and keeps every other message,
    and identifiers, recipient dids, policies and statuses are as before. *)
Theorem handled_request_is_terminal message from_ to_ (s : Agent) :
  type message = CoordinateMediation.MEDIATE_REQUEST →
  isSet (from message) = Some from_ →
  isSet (to message) = Some to_ →
  ∃ entry s',
    Mediator.handle uuid now super_handle message s
      = (Return (addMetaData message entry), s')
    ∧ md_type entry = "ReturnRouteResponse"
    ∧ (∀ i, i ≠ uuid → messages s' !! i = messages s !! i)
    ∧ identifiers s' = identifiers s
    ∧ recipient_dids s' = recipient_dids s
    ∧ mediation_policies s' = mediation_policies s
    ∧ mediations s' = mediations s.
Proof.
  intros Hty Hf Ht. eexists _, _. split.
  - unfold Mediator.handle, bind, try_catch.
    rewrite Hty, String.eqb_refl.
    rewrite (MediatorFacts.handleMediateRequest_run uuid now message from_ to_ s Hf Ht).
    reflexivity.
  - split; [reflexivity|]. split; [|done].
    intros i Hi; simpl. by rewrite lookup_insert_ne.
Qed.

End properties.

Lemma handled_request_is_terminal_witness :
  ∃ entry s',
    Mediator.handle Fixture.responseId Fixture.time Fixture.rejecting
      (Fixture.mediateRequest Fixture.recipient) Fixture.agent
      = (Return (addMetaData (Fixture.mediateRequest Fixture.recipient) entry), s')
    ∧ md_type entry = "ReturnRouteResponse"
    ∧ (∀ i, i ≠ Fixture.responseId →
            messages s' !! i = messages Fixture.agent !! i)
    ∧ identifiers s' = identifiers Fixture.agent
    ∧ recipient_dids s' = recipient_dids Fixture.agent
    ∧ mediation_policies s' = mediation_policies Fixture.agent
    ∧ mediations s' = mediations Fixture.agent.
Proof.
  apply (handled_request_is_terminal Fixture.responseId Fixture.time
           Fixture.rejecting (Fixture.mediateRequest Fixture.recipient)
           Fixture.recipient Fixture.mediator Fixture.agent); reflexivity.
Defined.

End MediatorProperties.

(** ** More on the recipient role *)

Module RecipientProperties.
Section properties.
Variable super_handle : IMessage → M IMessage.

(** X6. A mediate-grant that lacks [from], [to] or [thid] (absent or
    empty), whose body is null, or whose [routing_did] is missing or empty,
    is ignored whatever the repository holds: [handle] returns it as it
    came, without consulting the rest of the chain, and the agent differs
    only by the two log lines. *)
Theorem malformed_grant_is_ignored message (s : Agent) :
  type message = CoordinateMediation.MEDIATE_GRANT →
  isSet (from message) = None ∨ isSet (to message) = None
    ∨ isSet (threadId message) = None ∨ data message = None
    ∨ (∃ body, data message = Some body
               ∧ (routing_did body = None ∨ routing_did body = Some [])) →
  ∃ e,
    Recipient.handle super_handle message s
    = (Return message,
       logged (LogExn e) (logged (LogText "MediateGrant Message Received") s)).
Proof.
  intros Hty Hbad. rewrite RecipientHandleFacts.handle_grant by done.
  unfold Recipient.handleGrant.
  destruct (isSet (from message)) as [from_|]; [|unfold throw; eauto].
  destruct (isSet (to message)) as [to_|]; [|unfold throw; eauto].
  destruct (isSet (threadId message)) as [thid|]; [|unfold throw; eauto].
  destruct (data message) as [data_|]; [|unfold throw; eauto].
  destruct (routing_did data_) as [[|r0 rs]|] eqn:Hr; try (unfold throw; eauto).
  exfalso. destruct Hbad as [?|[?|[?|[?|(body & [= <-] & [?|?])]]]]; congruence.
Qed.

(** X7. A well-formed, correlated mediate-grant is handled at the
    recipient: [handle] returns the message with a
    [DIDCommMessagingServiceAdded] entry appended, and the document of the
    grant's [to] ends with the service [didcomm-mediator] whose endpoint
    is the first routing did (further routing dids are not used); its
    services of other ids are kept in their order.  The documents of other
    dids and the repository are as they were. *)
Theorem correlated_grant_installs_service message from_ to_ thid body r0 rs
    prev ident (s : Agent) :
  type message = CoordinateMediation.MEDIATE_GRANT →
  isSet (from message) = Some from_ →
  isSet (to message) = Some to_ →
  isSet (threadId message) = Some thid →
  data message = Some body →
  routing_did body = Some (r0 :: rs) →
  messages s !! thid = Some prev →
  from prev = Some to_ →
  to prev = Some from_ →
  identifiers s !! to_ = Some ident →
  ∃ s',
    Recipient.handle super_handle message s
    = (Return (addMetaData message
                 {| md_type := "DIDCommMessagingServiceAdded";
                    md_value := JsonService (Recipient.mediatorService r0) |}), s')
    ∧ (∃ others,
         servicesOf s' to_
         = Some (others
                 ++ [{| svc_id := "didcomm-mediator";
                        svc_type := "DIDCommMessaging";
                        serviceEndpoint := EndpointArray [EndpointObject r0] |}])
         ∧ filter (λ x, svc_id x ≠ "didcomm-mediator") others
           = filter (λ x, svc_id x ≠ "didcomm-mediator") (services ident))
    ∧ (∀ d, d ≠ to_ → identifiers s' !! d = identifiers s !! d)
    ∧ messages s' = messages s.
Proof.
  intros Hty Hf Ht Hth Hd Hr Hprev Hpf Hpt Hid.
  rewrite RecipientHandleFacts.handle_grant by done.
  unfold Recipient.handleGrant. rewrite Hf, Ht, Hth, Hd, Hr.
  unfold bind at 1, DataStore.dataStoreGetMessage.
  change (messages (logged _ s)) with (messages s). rewrite Hprev.
  rewrite !bool_decide_eq_true_2 by done.
  unfold bind, didManagerAddService, bind, didManagerGet.
  cbn [andb]. cbv beta.
  change (identifiers (logged _ s)) with (identifiers s). rewrite Hid.
  eexists. split; [reflexivity|]. split; [|split; [|reflexivity]].
  - exists (filter (λ x, svc_id x ≠ "didcomm-mediator") (services ident)).
    split.
    + unfold servicesOf. simpl. by rewrite lookup_insert_eq.
    + rewrite list_filter_filter. apply list_filter_iff. tauto.
  - intros d Hne. simpl. by rewrite lookup_insert_ne.
Qed.

(** X8. A mediate-deny whose sender is served by some service of the
    recipient's document (its endpoint is the sender's did as a string, or
    an array containing that string) removes the services that carry the
    id of the first such service and keeps all others in their order; the
    message then goes on to the rest of the chain.  Other documents and
    the repository are as they were. *)
Theorem deny_removes_first_match message from_ to_ ident x (s : Agent) :
  type message = CoordinateMediation.MEDIATE_DENY →
  isSet (from message) = Some from_ →
  isSet (to message) = Some to_ →
  identifiers s !! to_ = Some ident →
  find (Recipient.servesFrom from_) (services ident) = Some x →
  ∃ s',
    Recipient.handle super_handle message s = super_handle message s'
    ∧ Recipient.servesFrom from_ x = true
    ∧ x ∈ services ident
    ∧ servicesOf s' to_
      = Some (filter (λ y, svc_id y ≠ svc_id x) (services ident))
    ∧ (∀ d, d ≠ to_ → identifiers s' !! d = identifiers s !! d)
    ∧ messages s' = messages s.
Proof.
  intros Hty Hf Ht Hid Hfind.
  rewrite RecipientHandleFacts.handle_deny by done.
  unfold Recipient.handleDeny. rewrite Hf, Ht.
  unfold bind at 1, didManagerGet at 1.
  change (identifiers (logged _ s)) with (identifiers s).
  rewrite Hid, Hfind.
  unfold didManagerRemoveService, bind, didManagerGet.
  change (identifiers (logged _ s)) with (identifiers s). rewrite Hid.
  eexists. split; [reflexivity|].
  apply find_some in Hfind as [Hin Hserves].
  split; [done|]. split; [by apply list_elem_of_In|].
  split; [|split; [|reflexivity]].
  - unfold servicesOf. simpl. by rewrite lookup_insert_eq.
  - intros d Hne. simpl. by rewrite lookup_insert_ne.
Qed.

(** X9. Neither handler raises an exception of its own, whatever the
    message: an exception that leaves [handle] was thrown by the rest of
    the chain, on the inbound message as it came. *)
Theorem exceptions_come_from_the_chain uuid now message e (s s' : Agent) :
  (Mediator.handle uuid now super_handle message s = (Throw e, s') →
   ∃ s0, super_handle message s0 = (Throw e, s'))
  ∧ (Recipient.handle super_handle message s = (Throw e, s') →
     ∃ s0, super_handle message s0 = (Throw e, s')).
Proof.
  split.
  - unfold Mediator.handle, bind, try_catch.
    destruct (String.eqb (type message) CoordinateMediation.MEDIATE_REQUEST).
    + destruct (Mediator.handleMediateRequest uuid now message s)
        as [[m|e0] s1]; simpl; [discriminate|eauto].
    + destruct (String.eqb (type message) CoordinateMediation.RECIPIENT_UPDATE).
      * destruct (Mediator.handleRecipientUpdate message s)
          as [[m|e0] s1]; simpl; [discriminate|eauto].
      * simpl. eauto.
  - unfold Recipient.handle, bind, try_catch.
    destruct (String.eqb (type message) CoordinateMediation.MEDIATE_GRANT).
    + simpl.
      destruct (Recipient.handleGrant message _) as [[m|e0] s1];
        simpl; discriminate.
    + destruct (String.eqb (type message) CoordinateMediation.MEDIATE_DENY).
      * simpl.
        destruct (Recipient.handleDeny message _) as [[[]|e0] s1];
          simpl; eauto.
      * eauto.
Qed.

(** X10. With the mediator handler in front of the recipient handler, as
    the agent of the tests chains them, a message that is none of
    mediate-request, recipient-update, mediate-grant and mediate-deny
    reaches the rest of the chain as it came and with the agent as it
    was, and a mediate-grant or mediate-deny is handled exactly as the
    recipient handler alone handles it. *)
Theorem chain_dispatch uuid now message (s : Agent) :
  (type message ≠ CoordinateMediation.MEDIATE_REQUEST →
   type message ≠ CoordinateMediation.RECIPIENT_UPDATE →
   type message ≠ CoordinateMediation.MEDIATE_GRANT →
   type message ≠ CoordinateMediation.MEDIATE_DENY →
   Mediator.handle uuid now (Recipient.handle super_handle) message s
   = super_handle message s)
  ∧ (type message = CoordinateMediation.MEDIATE_GRANT
     ∨ type message = CoordinateMediation.MEDIATE_DENY →
     Mediator.handle uuid now (Recipient.handle super_handle) message s
     = Recipient.handle super_handle message s).
Proof.
  split.
  - intros H1 H2 H3 H4.
    rewrite MediatorHandleFacts.handle_other_type by done.
    unfold Recipient.handle.
    destruct (String.eqb_spec (type message) CoordinateMediation.MEDIATE_GRANT);
      [done|].
    destruct (String.eqb_spec (type message) CoordinateMediation.MEDIATE_DENY);
      [done|].
    reflexivity.
  - intros [H|H]; apply MediatorHandleFacts.handle_other_type;
      rewrite H; discriminate.
Qed.

(** X11. The mediator's answer fits the recipient's check.  When a
    mediate-request with a non-empty id, [from] and [to] is handled by the
    mediator, and the grant it attached arrives at a recipient agent that
    has the request stored (from the requester to the mediator) and
    manages the requester's did, then the recipient handler accepts the
    grant and the requester's document ends with the [didcomm-mediator]
    service pointing at the mediator, the request's [to]. *)
Theorem request_grant_round_trip uuid now superM request from_ to_
    response grant prev ident (sM sR : Agent) :
  type request = CoordinateMediation.MEDIATE_REQUEST →
  isSet (from request) = Some from_ →
  isSet (to request) = Some to_ →
  id request ≠ "" →
  messages sR !! id request = Some prev →
  from prev = Some from_ →
  to prev = Some to_ →
  identifiers sR !! from_ = Some ident →
  response = createMediateGrantMessage uuid now from_ to_ (id request) →
  arrivesAs response grant →
  ∃ m sM' sR' others,
    Mediator.handle uuid now superM request sM = (Return m, sM')
    ∧ returnRouteResponses m = returnRouteResponses request ++ [response]
    ∧ Recipient.handle super_handle grant sR
      = (Return (addMetaData grant
                   {| md_type := "DIDCommMessagingServiceAdded";
                      md_value := JsonService (Recipient.mediatorService to_) |}),
         sR')
    ∧ servicesOf sR' from_ = Some (others ++ [Recipient.mediatorService to_]).
Proof.
  intros Hty Hf Ht Hid Hprev Hpf Hpt Hident -> (Hgty & Hgf & Hgt & Hgth & Hgd).
  pose proof (isSet_Some _ _ Hf) as [_ Hfne].
  pose proof (isSet_Some _ _ Ht) as [_ Htne].
  destruct (RecipientHandleFacts.handle_correlated_grant super_handle grant
              to_ from_ (id request)
              {| routing_did := Some [to_]; updates := None |} to_ [] prev ident sR)
    as (sR' & Hrun & Hsv & _); try done.
  - rewrite Hgf. simpl. by destruct (String.eqb_spec to_ "").
  - rewrite Hgt. simpl. by destruct (String.eqb_spec from_ "").
  - rewrite Hgth. simpl. by destruct (String.eqb_spec (id request) "").
  - eexists _, _, sR', _. split.
    + unfold Mediator.handle, bind, try_catch.
      rewrite Hty, String.eqb_refl.
      rewrite (MediatorFacts.handleMediateRequest_run uuid now request from_ to_ sM Hf Ht).
      reflexivity.
    + split; [apply returnRouteResponses_addMetaData|].
      split; [exact Hrun|exact Hsv].
Qed.

End properties.

(** The grant with an empty [thid], although a matching request is stored
    under the empty id. *)
Lemma malformed_grant_is_ignored_witness :
  ∃ e,
    Recipient.handle Fixture.rejecting Samples.threadlessGrant Samples.emptyIdStored
    = (Return Samples.threadlessGrant,
       logged (LogExn e)
         (logged (LogText "MediateGrant Message Received") Samples.emptyIdStored)).
Proof.
  apply (malformed_grant_is_ignored Fixture.rejecting Samples.threadlessGrant
           Samples.emptyIdStored); [reflexivity|].
  right. right. left. reflexivity.
Defined.

Lemma correlated_grant_installs_service_witness :
  ∃ s',
    Recipient.handle Fixture.rejecting Fixture.mediateGrant Fixture.requested
    = (Return (addMetaData Fixture.mediateGrant
                 {| md_type := "DIDCommMessagingServiceAdded";
                    md_value :=
                      JsonService (Recipient.mediatorService Fixture.mediator) |}),
       s')
    ∧ (∃ others,
         servicesOf s' Fixture.recipient
         = Some (others
                 ++ [{| svc_id := "didcomm-mediator";
                        svc_type := "DIDCommMessaging";
                        serviceEndpoint :=
                          EndpointArray [EndpointObject Fixture.mediator] |}])
         ∧ filter (λ x, svc_id x ≠ "didcomm-mediator") others
           = filter (λ x, svc_id x ≠ "didcomm-mediator")
               (services Fixture.recipientDoc))
    ∧ (∀ d, d ≠ Fixture.recipient →
            identifiers s' !! d = identifiers Fixture.requested !! d)
    ∧ messages s' = messages Fixture.requested.
Proof.
  apply (correlated_grant_installs_service Fixture.rejecting Fixture.mediateGrant
           Fixture.mediator Fixture.recipient Fixture.requestId
           {| routing_did := Some [Fixture.mediator]; updates := None |}
           Fixture.mediator [] (Fixture.mediateRequest Fixture.recipient)
           Fixture.recipientDoc Fixture.requested); reflexivity.
Defined.

(** The deny of the mediator on a document with two services that name
    the mediator: the first one, [mediation], goes, [routing] stays. *)
Lemma deny_removes_first_match_witness :
  ∃ s',
    Recipient.handle Fixture.passThrough Fixture.mediateDeny Samples.served
    = Fixture.passThrough Fixture.mediateDeny s'
    ∧ Recipient.servesFrom Fixture.mediator Samples.stringService = true
    ∧ Samples.stringService ∈ services Samples.servedDoc
    ∧ servicesOf s' Fixture.recipient
      = Some [Fixture.messagingService "msg1"; Samples.arrayService]
    ∧ (∀ d, d ≠ Fixture.recipient →
            identifiers s' !! d = identifiers Samples.served !! d)
    ∧ messages s' = messages Samples.served.
Proof.
  apply (deny_removes_first_match Fixture.passThrough Fixture.mediateDeny
           Fixture.mediator Fixture.recipient Samples.servedDoc
           Samples.stringService Samples.served); reflexivity.
Defined.

(** A mediate-request and a mediate-deny without [from], each in front of
    a chain that rejects: the handler catches its own validation error,
    and the exception that leaves [handle] is the chain's. *)
Lemma exceptions_come_from_the_chain_witness :
  (∃ s0,
     Fixture.rejecting
       (Fixture.inbound CoordinateMediation.MEDIATE_REQUEST None
          (Some Fixture.mediator)) s0
     = (Throw (Error "Unsupported message type"),
        logged
          (LogExn (Error "invalid_argument: MediateRequest received without `from` set"))
          (logged (LogText "MediateRequest Message Received") Fixture.agent)))
  ∧ (∃ s0,
       Fixture.rejecting
         (Fixture.inbound CoordinateMediation.MEDIATE_DENY None
            (Some Fixture.recipient)) s0
       = (Throw (Error "Unsupported message type"),
          logged
            (LogExn (Error "invalid_argument: MediateGrant received without `from` set"))
            (logged (LogText "MediateDeny Message Received") Fixture.agent))).
Proof.
  split.
  - apply (proj1 (exceptions_come_from_the_chain Fixture.rejecting
                    Fixture.responseId Fixture.time
                    (Fixture.inbound CoordinateMediation.MEDIATE_REQUEST None
                       (Some Fixture.mediator))
                    (Error "Unsupported message type") Fixture.agent _)).
    reflexivity.
  - apply (proj2 (exceptions_come_from_the_chain Fixture.rejecting
                    Fixture.responseId Fixture.time
                    (Fixture.inbound CoordinateMediation.MEDIATE_DENY None
                       (Some Fixture.recipient))
                    (Error "Unsupported message type") Fixture.agent _)).
    reflexivity.
Defined.

Lemma chain_dispatch_witness :
  Mediator.handle Fixture.responseId Fixture.time
    (Recipient.handle Fixture.passThrough) Samples.statusRequest Fixture.agent
  = (Return Samples.statusRequest, Fixture.agent)
  ∧ Mediator.handle Fixture.responseId Fixture.time
      (Recipient.handle Fixture.passThrough) Fixture.mediateGrant Fixture.requested
    = Recipient.handle Fixture.passThrough Fixture.mediateGrant Fixture.requested.
Proof.
  split.
  - apply (proj1 (chain_dispatch Fixture.passThrough Fixture.responseId
                    Fixture.time Samples.statusRequest Fixture.agent));
      discriminate.
  - apply (proj2 (chain_dispatch Fixture.passThrough Fixture.responseId
                    Fixture.time Fixture.mediateGrant Fixture.requested)).
    left. reflexivity.
Defined.

(** The request of the tests, answered by the mediator and accepted by the
    recipient that stored it. *)
Lemma request_grant_round_trip_witness :
  ∃ m sM' sR' others,
    Mediator.handle Fixture.responseId Fixture.time Fixture.rejecting
      (Fixture.mediateRequest Fixture.recipient) Fixture.agent = (Return m, sM')
    ∧ returnRouteResponses m
      = returnRouteResponses (Fixture.mediateRequest Fixture.recipient)
        ++ [createMediateGrantMessage Fixture.responseId Fixture.time
              Fixture.recipient Fixture.mediator Fixture.requestId]
    ∧ Recipient.handle Fixture.rejecting Fixture.mediateGrant Fixture.requested
      = (Return (addMetaData Fixture.mediateGrant
                   {| md_type := "DIDCommMessagingServiceAdded";
                      md_value :=
                        JsonService (Recipient.mediatorService Fixture.mediator) |}),
         sR')
    ∧ servicesOf sR' Fixture.recipient
      = Some (others ++ [Recipient.mediatorService Fixture.mediator]).
Proof.
  apply (request_grant_round_trip Fixture.rejecting Fixture.responseId
           Fixture.time Fixture.rejecting
           (Fixture.mediateRequest Fixture.recipient)
           Fixture.recipient Fixture.mediator
           (createMediateGrantMessage Fixture.responseId Fixture.time
              Fixture.recipient Fixture.mediator Fixture.requestId)
           Fixture.mediateGrant (Fixture.mediateRequest Fixture.recipient)
           Fixture.recipientDoc Fixture.agent Fixture.requested);
    first [reflexivity | discriminate | (repeat split; reflexivity)].
Defined.

End RecipientProperties.

(** ** The snap-backed store *)

Module SnapProperties.
Section properties.
Variable Entry : Type.
Variable JSON_parse : string → option (Snap.VeramoJsonCache Entry).
Variable JSON_stringify : Snap.VeramoJsonCache Entry → string.

Lemma load_at (this : Snap.SnapLocalStorageStore Entry) snapState text cache :
  isSet (Snap.toString (default ∅ snapState !! Snap.localStorageKey this))
    = Some text →
  JSON_parse text = Some cache →
  Snap.load JSON_parse this (Some snapState)
  = Return (Snap.tablesOf cache (Snap.localStorageKey this)).
Proof.
  intros Htext Hparse. unfold Snap.load, Snap.getSnapState.
  rewrite Htext, Hparse. reflexivity.
Qed.

(** X12. What [save] writes, [fromLocalStorage] reads back: with the snap
    present, and for a state that [JSON.stringify] renders as a non-empty
    text which [JSON.parse] reads back as that state, saving the state
    under a store's key and then loading a store from that key gives the
    tables of the state, an absent table being empty, whatever the
    snap's managed state held before. *)
Theorem save_then_load (this : Snap.SnapLocalStorageStore Entry) newState
    snapState :
  JSON_stringify newState ≠ "" →
  JSON_parse (JSON_stringify newState) = Some newState →
  ∃ w',
    Snap.save JSON_stringify this newState (Some snapState) = (Return tt, w')
    ∧ Snap.fromLocalStorage JSON_parse (Snap.localStorageKey this) w'
      = Return (Snap.tablesOf newState (Snap.localStorageKey this)).
Proof.
  intros Hne Hparse. eexists. split; [reflexivity|].
  unfold Snap.fromLocalStorage.
  apply (load_at (Snap.new (Snap.localStorageKey this)) _
           (JSON_stringify newState) newState); [|done].
  simpl. rewrite lookup_insert_eq. simpl.
  by destruct (String.eqb_spec (JSON_stringify newState) "").
Qed.

(** X13. [save] writes under the store's own key only: every other key of
    the snap's managed state keeps its value, so a store loaded from
    another key is the same before and after. *)
Theorem save_keeps_other_keys (this : Snap.SnapLocalStorageStore Entry)
    newState snapState key :
  key ≠ Snap.localStorageKey this →
  ∃ newLocalStorageState,
    Snap.save JSON_stringify this newState (Some snapState)
      = (Return tt, Some (Some newLocalStorageState))
    ∧ newLocalStorageState !! key = default ∅ snapState !! key
    ∧ Snap.fromLocalStorage JSON_parse key (Some (Some newLocalStorageState))
      = Snap.fromLocalStorage JSON_parse key (Some snapState).
Proof.
  intros Hkey. eexists. split; [reflexivity|].
  assert (<[Snap.localStorageKey this := Snap.JsonString (JSON_stringify newState)]>
            (default ∅ snapState) !! key = default ∅ snapState !! key) as Hlook
    by (by rewrite lookup_insert_ne).
  split; [exact Hlook|].
  unfold Snap.fromLocalStorage, Snap.load, Snap.getSnapState. simpl.
  by rewrite Hlook.
Qed.

(** X14. A cache that cannot be used does not make loading fail.  With the
    snap present: when nothing, [null] or the empty string is stored under
    the key, the text parsed is [{}], and when the stored text does not
    parse, the error is swallowed; in both cases the store that comes back
    has all tables empty, as a new store has. *)
Theorem load_tolerates_bad_cache key snapState :
  (isSet (Snap.toString (default ∅ snapState !! key)) = None →
   JSON_parse "{}" = Some Snap.emptyCache →
   Snap.fromLocalStorage JSON_parse key (Some snapState) = Return (Snap.new key))
  ∧ (∀ text,
       isSet (Snap.toString (default ∅ snapState !! key)) = Some text →
       JSON_parse text = None →
       Snap.fromLocalStorage JSON_parse key (Some snapState)
       = Return (Snap.new key)).
Proof.
  split.
  - intros Hraw Hparse.
    unfold Snap.fromLocalStorage, Snap.load, Snap.getSnapState.
    change (Snap.localStorageKey (Snap.new key)) with key.
    rewrite Hraw, Hparse. reflexivity.
  - intros text Hraw Hparse.
    unfold Snap.fromLocalStorage, Snap.load, Snap.getSnapState.
    change (Snap.localStorageKey (Snap.new key)) with key.
    rewrite Hraw, Hparse. reflexivity.
Qed.

(** X15. With the global [snap] declared, loading and saving fail exactly
    when it is falsy: whatever the managed state and the codec,
    [fromLocalStorage] returns a store and [save] returns when [snap] is
    the snap object, and when [snap] is [undefined] or [null] both throw
    the error of [getSnapState] and [save] changes nothing. *)
Theorem fails_only_with_falsy_snap (this : Snap.SnapLocalStorageStore Entry)
    newState key (w : Snap.World) :
  ((∃ store, Snap.fromLocalStorage JSON_parse key w = Return store) ↔ w ≠ None)
  ∧ ((∃ w', Snap.save JSON_stringify this newState w = (Return tt, w')) ↔ w ≠ None)
  ∧ (w = None →
     Snap.fromLocalStorage JSON_parse key w
       = Throw (Error "global snap object not found. Are you in the right context?")
     ∧ Snap.save JSON_stringify this newState w
       = (Throw (Error "global snap object not found. Are you in the right context?"),
          w)).
Proof.
  destruct w as [snapState|].
  - split; [|split].
    + split; [done|]. intros _.
      unfold Snap.fromLocalStorage, Snap.load, Snap.getSnapState. eauto.
    + split; [done|]. intros _. unfold Snap.save, Snap.getSnapState. eauto.
    + done.
  - split; [|split].
    + split; [|done]. intros [store H]. discriminate.
    + split; [|done]. intros [w' H]. discriminate.
    + done.
Qed.

End properties.

Lemma save_then_load_witness :
  ∃ w',
    Snap.save Snap.sampleStringify (Snap.new "veramo-state") Snap.sampleCache
      (Some Snap.sampleState) = (Return tt, w')
    ∧ Snap.fromLocalStorage Snap.sampleParse "veramo-state" w'
      = Return (Snap.tablesOf Snap.sampleCache "veramo-state").
Proof.
  apply (save_then_load string Snap.sampleParse Snap.sampleStringify
           (Snap.new "veramo-state") Snap.sampleCache Snap.sampleState);
    [discriminate | reflexivity].
Defined.

Lemma save_keeps_other_keys_witness :
  ∃ newLocalStorageState,
    Snap.save Snap.sampleStringify (Snap.new "veramo-state") Snap.sampleCache
      (Some Snap.sampleState) = (Return tt, Some (Some newLocalStorageState))
    ∧ newLocalStorageState !! "other-snap-key"
      = default ∅ Snap.sampleState !! "other-snap-key"
    ∧ Snap.fromLocalStorage Snap.sampleParse "other-snap-key"
        (Some (Some newLocalStorageState))
      = Snap.fromLocalStorage Snap.sampleParse "other-snap-key"
          (Some Snap.sampleState).
Proof.
  apply (save_keeps_other_keys string Snap.sampleParse Snap.sampleStringify
           (Snap.new "veramo-state") Snap.sampleCache Snap.sampleState
           "other-snap-key").
  discriminate.
Defined.

(** No state yet, and a key whose text is not a cache. *)
Lemma load_tolerates_bad_cache_witness :
  Snap.fromLocalStorage Snap.sampleParse "veramo-state" (Some None)
    = Return (Snap.new "veramo-state")
  ∧ Snap.fromLocalStorage Snap.sampleParse "other-snap-key"
      (Some Snap.sampleState)
    = Return (Snap.new "other-snap-key").
Proof.
  split.
  - apply (proj1 (load_tolerates_bad_cache string Snap.sampleParse
                    "veramo-state" None)); reflexivity.
  - apply (proj2 (load_tolerates_bad_cache string Snap.sampleParse
                    "other-snap-key" Snap.sampleState)
             "unrelated"); reflexivity.
Defined.

Lemma fails_only_with_falsy_snap_witness :
  Snap.fromLocalStorage Snap.sampleParse "veramo-state" None
    = Throw (Error "global snap object not found. Are you in the right context?")
  ∧ Snap.save Snap.sampleStringify (Snap.new "veramo-state") Snap.sampleCache None
    = (Throw (Error "global snap object not found. Are you in the right context?"),
       None).
Proof.
  apply (proj2 (proj2 (fails_only_with_falsy_snap string Snap.sampleParse
                         Snap.sampleStringify (Snap.new "veramo-state")
                         Snap.sampleCache "veramo-state" None))).
  reflexivity.
Defined.

End SnapProperties.
